(** * WheelApi: the host-side HID report codec of the FFBeast wheel

    A shallow embedding of [reference_cpp/ffbeast-wheel-api-lib/wheel_api.cpp].

    - Integers of the C++ program are [Z] with the wrap-around of every
      implicit conversion written out ([to_uint8], [to_uint16], ...).
    - A report is the byte image of the packed structure: a [list] of
      bytes indexed from 0; a store through a reinterpreted pointer is an
      update of the list at the offset the pointer has in the frame.
    - The HID library (hidapi) is an interface the program calls into; its
      answers come from a [HidApi] instance over an abstract [World], and
      every call is appended to a log, so that "no transport call" is a
      statement about the log.
    - [WheelApi] methods are state transformers over the object's [handle],
      the world and the log. *)

From Stdlib Require Import ZArith List Lia.
From stdpp Require Import base list strings.

Local Open Scope Z_scope.

(** ** Fixed-width integers *)

Definition to_uint8 (z : Z) : Z := z mod 256.
Definition to_uint16 (z : Z) : Z := z mod 65536.
Definition to_uint32 (z : Z) : Z := z mod 4294967296.

(** The value of an 8-bit (16-bit) pattern read as two's complement. *)
Definition to_int8 (z : Z) : Z :=
  let u := to_uint8 z in if u <? 128 then u else u - 256.
Definition to_int16 (z : Z) : Z :=
  let u := to_uint16 z in if u <? 32768 then u else u - 65536.

Definition is_uint8 (z : Z) : Prop := 0 <= z < 256.
Definition is_int8 (z : Z) : Prop := -128 <= z <= 127.
Definition is_uint16 (z : Z) : Prop := 0 <= z < 65536.
Definition is_int16 (z : Z) : Prop := -32768 <= z <= 32767.
Definition is_uint32 (z : Z) : Prop := 0 <= z < 4294967296.

(** ** Object representation

    The program writes values "in the natural byte representation": the
    bytes of the two's-complement pattern in the byte order of the host.
    The order is a parameter of the model. *)

Inductive byte_order := LittleEndian | BigEndian.

Class HostAbi := { host_byte_order : byte_order }.

(** The [n] low bytes of [v], least significant first. *)
Fixpoint le_bytes (n : nat) (v : Z) : list Z :=
  match n with
  | O => []
  | S n' => v mod 256 :: le_bytes n' (v / 256)
  end.

Fixpoint le_value (bs : list Z) : Z :=
  match bs with
  | [] => 0
  | b :: bs' => b + 256 * le_value bs'
  end.

Definition object_bytes `{HostAbi} (n : nat) (v : Z) : list Z :=
  match host_byte_order with
  | LittleEndian => le_bytes n v
  | BigEndian => rev (le_bytes n v)
  end.

Definition object_value `{HostAbi} (bs : list Z) : Z :=
  match host_byte_order with
  | LittleEndian => le_value bs
  | BigEndian => le_value (rev bs)
  end.

(** ** Memory

    [store buf off bs] writes [bs] into [buf] from offset [off] on. A write
    past the end of [buf] is undefined behaviour in C++; the model drops
    it, and every theorem that depends on such a write being in range says
    so in a hypothesis. *)

Fixpoint store {A} (buf : list A) (off : nat) (bs : list A) : list A :=
  match bs with
  | [] => buf
  | b :: bs' => store (<[off := b]> buf) (S off) bs'
  end.

Definition load {A} (buf : list A) (off n : nat) : list A :=
  take n (drop off buf).

(** [memcpy(dst + doff, src + soff, n)] *)
Definition memcpy {A} (dst : list A) (doff : nat) (src : list A) (soff n : nat)
  : list A :=
  store dst doff (load src soff n).

(** A byte of an object with automatic storage that was never written is
    indeterminate: [None]. *)
Definition memval := option Z.

Definition uninitialized (n : nat) : list memval := replicate n None.

(** [T x = {};] *)
Definition zero_initialized (n : nat) : list Z := replicate n 0.

(** ** wheel_api.h

    The header is not part of the sources. Its constants and the sizes of
    the structures it declares are parameters of the development. *)

Class WheelApiHeader := {
  USB_VID : Z;
  WHEEL_PID_FS : Z;
  (* ReportTypeEnum *)
  REPORT_GENERIC_INPUT_OUTPUT : Z;
  REPORT_EFFECT_SETTINGS_FEATURE : Z;
  REPORT_HARDWARE_SETTINGS_FEATURE : Z;
  REPORT_GPIO_SETTINGS_FEATURE : Z;
  REPORT_ADC_SETTINGS_FEATURE : Z;
  (* ReportDataTypeEnum *)
  DATA_COMMAND_SAVE_SETTINGS : Z;
  DATA_COMMAND_REBOOT : Z;
  DATA_COMMAND_DFU_MODE : Z;
  DATA_COMMAND_RESET_CENTER : Z;
  DATA_OVERRIDE_DATA : Z;
  DATA_SETTINGS_FIELD_DATA : Z;
  (* sizeof of the payload structures *)
  sizeof_EffectSettingsTypeDef : nat;
  sizeof_HardwareSettingsTypeDef : nat;
  sizeof_GpioExtensionSettingsTypeDef : nat;
  sizeof_AdcExtensionSettingsTypeDef : nat;
  sizeof_DeviceStateTypeDef : nat;
  sizeof_DirectControlTypeDef : nat
}.

(** Modelled from the spec: the declarations of HidInOutReportTypeDef,
    DataReportTypeDef, FieldDataTypeDef and FieldValueTypeDef are in the
    missing header. The offsets are those of the spec's wire layout: packed
    structures, a one-byte member followed by the buffer that holds the next
    level. *)
Definition sizeof_HidInOutReportTypeDef : nat := 65.
Definition offsetof_HidInOutReport_ReportId : nat := 0.
Definition offsetof_HidInOutReport_Buffer : nat := 1.
Definition offsetof_DataReport_ReportData : nat := 0.
Definition offsetof_DataReport_Buffer : nat := 1.
Definition offsetof_FieldData_FieldId : nat := 0.
Definition offsetof_FieldData_Value : nat := 1.
Definition offsetof_FieldValue_Index : nat := 0.
Definition offsetof_FieldValue_Buffer : nat := 1.

(** The five report structures declared at the top of wheel_api.cpp:
    [uint8_t ReportId] followed by the payload structure, packed. *)
Definition offsetof_Report_ReportId : nat := 0.
Definition offsetof_Report_payload : nat := 1.
Definition sizeof_Report (sizeof_payload : nat) : nat := (1 + sizeof_payload)%nat.

(** ** hidapi *)

(** [struct hid_device_info], the two members the program reads; [next] is
    the tail of the list. *)
Record hid_device_info := {
  path : string;
  interface_number : Z
}.

(** An open device, [hid_device *] other than [nullptr]. *)
Definition hid_device := nat.

(** What the HID library answers. [World] is everything outside the
    program that an answer may depend on and a call may change.
    The two read primitives answer with the returned [int] and the bytes
    they stored at the start of the caller's buffer. *)
Class HidApi (World : Type) := {
  transport_enumerate : Z -> Z -> World -> list hid_device_info * World;
  transport_open_path : string -> World -> option hid_device * World;
  transport_free_enumeration : list hid_device_info -> World -> World;
  transport_write : hid_device -> list Z -> nat -> World -> Z * World;
  transport_read_timeout :
    hid_device -> list memval -> nat -> Z -> World -> Z * list Z * World;
  transport_get_feature_report :
    hid_device -> list memval -> nat -> World -> Z * list Z * World
}.

Inductive hid_call :=
| call_enumerate (vendor_id product_id : Z)
| call_open_path (p : string)
| call_free_enumeration (devs : list hid_device_info)
| call_write (dev : hid_device) (data : list Z) (length : nat)
| call_read_timeout (dev : hid_device) (length : nat) (milliseconds : Z)
| call_get_feature_report (dev : hid_device) (report_id : option memval) (length : nat).

(** ** Program state *)

Record State (World : Type) := mkState {
  handle : option hid_device;      (* WheelApi::handle, None is nullptr *)
  world : World;
  calls : list hid_call            (* the transport calls made so far *)
}.
Arguments mkState {World}.
Arguments handle {World}.
Arguments world {World}.
Arguments calls {World}.

Definition M (World A : Type) : Type := State World -> A * State World.

Definition ret {World A} (a : A) : M World A := fun st => (a, st).

Definition bind {World A B} (m : M World A) (k : A -> M World B) : M World B :=
  fun st => let '(a, st') := m st in k a st'.

Notation "'let*' x ':=' m 'in' k" := (bind m (fun x => k))
  (at level 10, x pattern, m at level 100, k at level 200).

Definition get_handle {World} : M World (option hid_device) :=
  fun st => (handle st, st).

Definition set_handle {World} (h : option hid_device) : M World unit :=
  fun st => (tt, mkState h (world st) (calls st)).

(** The frames handed to [hid_write] among the calls [m] makes from [st]. *)
Definition written (c : hid_call) : option (list Z) :=
  match c with
  | call_write _ data _ => Some data
  | _ => None
  end.

Definition new_calls {World A} (m : M World A) (st : State World) : list hid_call :=
  drop (length (calls st)) (calls (m st).2).

Definition frames_written {World A} (m : M World A) (st : State World)
  : list (list Z) :=
  omap written (new_calls m st).

Section Transport.
Context {World : Type} `{HidApi World}.

Definition log (c : hid_call) (w : World) (st : State World) : State World :=
  mkState (handle st) w (calls st ++ [c]).

Definition hid_enumerate (vendor_id product_id : Z)
  : M World (list hid_device_info) :=
  fun st =>
    let '(devs, w) := transport_enumerate vendor_id product_id (world st) in
    (devs, log (call_enumerate vendor_id product_id) w st).

Definition hid_open_path (p : string) : M World (option hid_device) :=
  fun st =>
    let '(h, w) := transport_open_path p (world st) in
    (h, log (call_open_path p) w st).

Definition hid_free_enumeration (devs : list hid_device_info) : M World unit :=
  fun st =>
    (tt, log (call_free_enumeration devs)
             (transport_free_enumeration devs (world st)) st).

Definition hid_write (dev : hid_device) (data : list Z) (length : nat)
  : M World Z :=
  fun st =>
    let '(r, w) := transport_write dev data length (world st) in
    (r, log (call_write dev data length) w st).

(** The library stores at most [length] bytes, from [data[0]] on. *)
Definition hid_read_timeout (dev : hid_device) (data : list memval)
    (length : nat) (milliseconds : Z) : M World (Z * list memval) :=
  fun st =>
    let '(r, bytes, w) :=
      transport_read_timeout dev data length milliseconds (world st) in
    ((r, store data 0 (Some <$> take length bytes)),
     log (call_read_timeout dev length milliseconds) w st).

Definition hid_get_feature_report (dev : hid_device) (data : list memval)
    (length : nat) : M World (Z * list memval) :=
  fun st =>
    let '(r, bytes, w) :=
      transport_get_feature_report dev data length (world st) in
    ((r, store data 0 (Some <$> take length bytes)),
     log (call_get_feature_report dev (data !! 0%nat) length) w st).
End Transport.

(** ** WheelApi *)

Section WheelApi.
Context `{WheelApiHeader} `{HostAbi} {World : Type} `{HidApi World}.

(** The [while (cur_dev)] loop of [connect]: the value of [path_to_open]
    when the loop is left. [hid_enumerate] gives every entry a path, so
    [path_to_open] is null exactly when the loop ran off the list. *)
Fixpoint connect_loop (cur_dev : list hid_device_info) : option string :=
  match cur_dev with
  | [] => None
  | d :: next =>
      if interface_number d =? 0 then Some (path d) else connect_loop next
  end.

Definition connect : M World Z :=
  let result := 0 in
  let* devs := hid_enumerate USB_VID WHEEL_PID_FS in
  let path_to_open := connect_loop devs in
  let* result :=
    match path_to_open with
    | Some p =>
        let* h := hid_open_path p in
        let* _ := set_handle h in
        ret 1
    | None => ret result
    end in
  let* _ := hid_free_enumeration devs in
  ret result.

Definition saveAndReboot : M World Z :=
  let* h := get_handle in
  match h with
  | Some dev =>
      let genericReport := zero_initialized sizeof_HidInOutReportTypeDef in
      let genericReport :=
        <[offsetof_HidInOutReport_ReportId :=
            to_uint8 REPORT_GENERIC_INPUT_OUTPUT]> genericReport in
      let data := offsetof_HidInOutReport_Buffer in
      let genericReport :=
        <[(data + offsetof_DataReport_ReportData)%nat :=
            to_uint8 DATA_COMMAND_SAVE_SETTINGS]> genericReport in
      hid_write dev genericReport 65
  | None => ret 0
  end.

Definition rebootController : M World Z :=
  let* h := get_handle in
  match h with
  | Some dev =>
      let genericReport := zero_initialized sizeof_HidInOutReportTypeDef in
      let genericReport :=
        <[offsetof_HidInOutReport_ReportId :=
            to_uint8 REPORT_GENERIC_INPUT_OUTPUT]> genericReport in
      let data := offsetof_HidInOutReport_Buffer in
      let genericReport :=
        <[(data + offsetof_DataReport_ReportData)%nat :=
            to_uint8 DATA_COMMAND_REBOOT]> genericReport in
      hid_write dev genericReport 65
  | None => ret 0
  end.

Definition switchtoDfu : M World Z :=
  let* h := get_handle in
  match h with
  | Some dev =>
      let genericReport := zero_initialized sizeof_HidInOutReportTypeDef in
      let genericReport :=
        <[offsetof_HidInOutReport_ReportId :=
            to_uint8 REPORT_GENERIC_INPUT_OUTPUT]> genericReport in
      let data := offsetof_HidInOutReport_Buffer in
      let genericReport :=
        <[(data + offsetof_DataReport_ReportData)%nat :=
            to_uint8 DATA_COMMAND_DFU_MODE]> genericReport in
      hid_write dev genericReport 65
  | None => ret 0
  end.

Definition resetCenter : M World Z :=
  let* h := get_handle in
  match h with
  | Some dev =>
      let genericReport := zero_initialized sizeof_HidInOutReportTypeDef in
      let genericReport :=
        <[offsetof_HidInOutReport_ReportId :=
            to_uint8 REPORT_GENERIC_INPUT_OUTPUT]> genericReport in
      let data := offsetof_HidInOutReport_Buffer in
      let genericReport :=
        <[(data + offsetof_DataReport_ReportData)%nat :=
            to_uint8 DATA_COMMAND_RESET_CENTER]> genericReport in
      hid_write dev genericReport 65
  | None => ret 0
  end.

(** A parameter of type [uint8_t], [int8_t], ... holds the argument
    converted to that type: each function below starts by converting its
    parameters. A [float] is its 32-bit pattern; the program only copies
    it. [SettingsFieldEnum] is declared in the missing header and is
    passed on as it is. *)

Definition CreateInt8SettingsReport (report : list Z) (fieldId index value : Z)
  : list Z :=
  let fieldId := to_uint8 fieldId in
  let index := to_uint8 index in
  let value := to_int8 value in
  let report :=
    <[offsetof_HidInOutReport_ReportId :=
        to_uint8 REPORT_GENERIC_INPUT_OUTPUT]> report in
  let genericData := offsetof_HidInOutReport_Buffer in
  let report :=
    <[(genericData + offsetof_DataReport_ReportData)%nat :=
        to_uint8 DATA_SETTINGS_FIELD_DATA]> report in
  let settingsFieldData := (genericData + offsetof_DataReport_Buffer)%nat in
  let report :=
    <[(settingsFieldData + offsetof_FieldData_FieldId)%nat := fieldId]> report in
  let settingsField := (settingsFieldData + offsetof_FieldData_Value)%nat in
  let report :=
    <[(settingsField + offsetof_FieldValue_Index)%nat := index]> report in
  let valueWrapper := (settingsField + offsetof_FieldValue_Buffer)%nat in
  store report valueWrapper (object_bytes 1 value).

Definition CreateInt16SettingsReport (report : list Z) (fieldId index value : Z)
  : list Z :=
  let fieldId := to_uint8 fieldId in
  let index := to_uint8 index in
  let value := to_int16 value in
  let report :=
    <[offsetof_HidInOutReport_ReportId :=
        to_uint8 REPORT_GENERIC_INPUT_OUTPUT]> report in
  let genericData := offsetof_HidInOutReport_Buffer in
  let report :=
    <[(genericData + offsetof_DataReport_ReportData)%nat :=
        to_uint8 DATA_SETTINGS_FIELD_DATA]> report in
  let settingsFieldData := (genericData + offsetof_DataReport_Buffer)%nat in
  let report :=
    <[(settingsFieldData + offsetof_FieldData_FieldId)%nat := fieldId]> report in
  let settingsField := (settingsFieldData + offsetof_FieldData_Value)%nat in
  let report :=
    <[(settingsField + offsetof_FieldValue_Index)%nat := index]> report in
  let valueWrapper := (settingsField + offsetof_FieldValue_Buffer)%nat in
  store report valueWrapper (object_bytes 2 value).

Definition CreateUInt8SettingsReport (report : list Z) (fieldId index value : Z)
  : list Z :=
  let fieldId := to_uint8 fieldId in
  let index := to_uint8 index in
  let value := to_uint8 value in
  let report :=
    <[offsetof_HidInOutReport_ReportId :=
        to_uint8 REPORT_GENERIC_INPUT_OUTPUT]> report in
  let genericData := offsetof_HidInOutReport_Buffer in
  let report :=
    <[(genericData + offsetof_DataReport_ReportData)%nat :=
        to_uint8 DATA_SETTINGS_FIELD_DATA]> report in
  let settingsFieldData := (genericData + offsetof_DataReport_Buffer)%nat in
  let report :=
    <[(settingsFieldData + offsetof_FieldData_FieldId)%nat := fieldId]> report in
  let settingsField := (settingsFieldData + offsetof_FieldData_Value)%nat in
  let report :=
    <[(settingsField + offsetof_FieldValue_Index)%nat := index]> report in
  let valueWrapper := (settingsField + offsetof_FieldValue_Buffer)%nat in
  store report valueWrapper (object_bytes 1 value).

Definition CreateUInt16SettingsReport (report : list Z) (fieldId index value : Z)
  : list Z :=
  let fieldId := to_uint8 fieldId in
  let index := to_uint8 index in
  let value := to_uint16 value in
  let report :=
    <[offsetof_HidInOutReport_ReportId :=
        to_uint8 REPORT_GENERIC_INPUT_OUTPUT]> report in
  let genericData := offsetof_HidInOutReport_Buffer in
  let report :=
    <[(genericData + offsetof_DataReport_ReportData)%nat :=
        to_uint8 DATA_SETTINGS_FIELD_DATA]> report in
  let settingsFieldData := (genericData + offsetof_DataReport_Buffer)%nat in
  let report :=
    <[(settingsFieldData + offsetof_FieldData_FieldId)%nat := fieldId]> report in
  let settingsField := (settingsFieldData + offsetof_FieldData_Value)%nat in
  let report :=
    <[(settingsField + offsetof_FieldValue_Index)%nat := index]> report in
  let valueWrapper := (settingsField + offsetof_FieldValue_Buffer)%nat in
  store report valueWrapper (object_bytes 2 value).

Definition CreateFloatSettingsReport (report : list Z) (fieldId index value : Z)
  : list Z :=
  let fieldId := to_uint8 fieldId in
  let index := to_uint8 index in
  let value := to_uint32 value in
  let report :=
    <[offsetof_HidInOutReport_ReportId :=
        to_uint8 REPORT_GENERIC_INPUT_OUTPUT]> report in
  let genericData := offsetof_HidInOutReport_Buffer in
  let report :=
    <[(genericData + offsetof_DataReport_ReportData)%nat :=
        to_uint8 DATA_SETTINGS_FIELD_DATA]> report in
  let settingsFieldData := (genericData + offsetof_DataReport_Buffer)%nat in
  let report :=
    <[(settingsFieldData + offsetof_FieldData_FieldId)%nat := fieldId]> report in
  let settingsField := (settingsFieldData + offsetof_FieldData_Value)%nat in
  let report :=
    <[(settingsField + offsetof_FieldValue_Index)%nat := index]> report in
  let valueWrapper := (settingsField + offsetof_FieldValue_Buffer)%nat in
  store report valueWrapper (object_bytes 4 value).

(** [control] is the byte image of the [DirectControlTypeDef] argument. *)
Definition sendDirectControl (control : list Z) : M World Z :=
  let* h := get_handle in
  match h with
  | Some dev =>
      let report := zero_initialized sizeof_HidInOutReportTypeDef in
      let report :=
        <[offsetof_HidInOutReport_ReportId :=
            to_uint8 REPORT_GENERIC_INPUT_OUTPUT]> report in
      let genericData := offsetof_HidInOutReport_Buffer in
      let report :=
        <[(genericData + offsetof_DataReport_ReportData)%nat :=
            to_uint8 DATA_OVERRIDE_DATA]> report in
      let report :=
        memcpy report (genericData + offsetof_DataReport_Buffer)%nat
               control 0 sizeof_DirectControlTypeDef in
      hid_write dev report 65
  | None => ret 0
  end.

Definition sendInt8SettingReport (field index data : Z) : M World Z :=
  let index := to_int8 index in
  let data := to_int8 data in
  let* h := get_handle in
  match h with
  | Some dev =>
      let genericReport := zero_initialized sizeof_HidInOutReportTypeDef in
      let genericReport :=
        CreateInt8SettingsReport genericReport field index data in
      hid_write dev genericReport 65
  | None => ret 0
  end.

Definition sendInt16SettingReport (field index data : Z) : M World Z :=
  let index := to_int8 index in
  let data := to_int16 data in
  let* h := get_handle in
  match h with
  | Some dev =>
      let genericReport := zero_initialized sizeof_HidInOutReportTypeDef in
      let genericReport :=
        CreateUInt16SettingsReport genericReport field index data in
      hid_write dev genericReport 65
  | None => ret 0
  end.

Definition sendUInt8SettingReport (field index data : Z) : M World Z :=
  let index := to_int8 index in
  let data := to_uint8 data in
  let* h := get_handle in
  match h with
  | Some dev =>
      let genericReport := zero_initialized sizeof_HidInOutReportTypeDef in
      let genericReport :=
        CreateUInt8SettingsReport genericReport field index data in
      hid_write dev genericReport 65
  | None => ret 0
  end.

Definition sendUInt16SettingReport (field index data : Z) : M World Z :=
  let index := to_int8 index in
  let data := to_uint16 data in
  let* h := get_handle in
  match h with
  | Some dev =>
      let genericReport := zero_initialized sizeof_HidInOutReportTypeDef in
      let genericReport :=
        CreateUInt16SettingsReport genericReport field index data in
      hid_write dev genericReport 65
  | None => ret 0
  end.

Definition sendFloatSettingReport (field index data : Z) : M World Z :=
  let index := to_int8 index in
  let data := to_uint32 data in
  let* h := get_handle in
  match h with
  | Some dev =>
      let genericReport := zero_initialized sizeof_HidInOutReportTypeDef in
      let genericReport :=
        CreateFloatSettingsReport genericReport field index data in
      hid_write dev genericReport 65
  | None => ret 0
  end.

(** The read operations take the object [destination] points to and
    return it, as it is after the call, next to the returned [int]. *)

Definition readEffectSettings (destination : list memval)
  : M World (Z * list memval) :=
  let result := 0 in
  let* h := get_handle in
  match h with
  | Some dev =>
      let report := uninitialized (sizeof_Report sizeof_EffectSettingsTypeDef) in
      let report :=
        <[offsetof_Report_ReportId :=
            Some (to_uint8 REPORT_EFFECT_SETTINGS_FEATURE)]> report in
      let* (result, report) :=
        hid_get_feature_report dev report
          (sizeof_Report sizeof_EffectSettingsTypeDef) in
      let destination :=
        if 0 <? result
        then memcpy destination 0 report offsetof_Report_payload
                    sizeof_EffectSettingsTypeDef
        else destination in
      ret (result, destination)
  | None => ret (result, destination)
  end.

(** In the next three the block declares its own [int result]: the
    transport's answer goes to that inner variable, which guards the copy,
    and the function returns the outer one. *)

Definition readHardwareSettings (destination : list memval)
  : M World (Z * list memval) :=
  let result := 0 in
  let* h := get_handle in
  match h with
  | Some dev =>
      let report := uninitialized (sizeof_Report sizeof_HardwareSettingsTypeDef) in
      let report :=
        <[offsetof_Report_ReportId :=
            Some (to_uint8 REPORT_HARDWARE_SETTINGS_FEATURE)]> report in
      let* (result_inner, report) :=
        hid_get_feature_report dev report
          (sizeof_Report sizeof_HardwareSettingsTypeDef) in
      let destination :=
        if 0 <? result_inner
        then memcpy destination 0 report offsetof_Report_payload
                    sizeof_HardwareSettingsTypeDef
        else destination in
      ret (result, destination)
  | None => ret (result, destination)
  end.

Definition readGpioExtensionSettings (destination : list memval)
  : M World (Z * list memval) :=
  let result := 0 in
  let* h := get_handle in
  match h with
  | Some dev =>
      let report :=
        uninitialized (sizeof_Report sizeof_GpioExtensionSettingsTypeDef) in
      let report :=
        <[offsetof_Report_ReportId :=
            Some (to_uint8 REPORT_GPIO_SETTINGS_FEATURE)]> report in
      let* (result_inner, report) :=
        hid_get_feature_report dev report
          (sizeof_Report sizeof_GpioExtensionSettingsTypeDef) in
      let destination :=
        if 0 <? result_inner
        then memcpy destination 0 report offsetof_Report_payload
                    sizeof_GpioExtensionSettingsTypeDef
        else destination in
      ret (result, destination)
  | None => ret (result, destination)
  end.

Definition readAdcExtensionSettings (destination : list memval)
  : M World (Z * list memval) :=
  let result := 0 in
  let* h := get_handle in
  match h with
  | Some dev =>
      let report :=
        uninitialized (sizeof_Report sizeof_AdcExtensionSettingsTypeDef) in
      let report :=
        <[offsetof_Report_ReportId :=
            Some (to_uint8 REPORT_ADC_SETTINGS_FEATURE)]> report in
      let* (result_inner, report) :=
        hid_get_feature_report dev report
          (sizeof_Report sizeof_AdcExtensionSettingsTypeDef) in
      let destination :=
        if 0 <? result_inner
        then memcpy destination 0 report offsetof_Report_payload
                    sizeof_AdcExtensionSettingsTypeDef
        else destination in
      ret (result, destination)
  | None => ret (result, destination)
  end.

(** [hid_read_timeout] is given the length 65 whatever the size of
    [StateReportTypeDef] is. *)
Definition readState (destination : list memval) : M World (Z * list memval) :=
  let* h := get_handle in
  match h with
  | Some dev =>
      let report := uninitialized (sizeof_Report sizeof_DeviceStateTypeDef) in
      let* (result, report) := hid_read_timeout dev report 65 100 in
      let destination :=
        if 0 <? result
        then memcpy destination 0 report offsetof_Report_payload
                    sizeof_DeviceStateTypeDef
        else destination in
      ret (result, destination)
  | None => ret (0, destination)
  end.
End WheelApi.

(** ** Reading a frame back

    The program has no decoder for the frames it sends. The one below reads
    a frame the way the spec's wire layout describes it: byte 2 is the Field
    Identifier, byte 3 the Index, the value starts at byte 4 and has the
    width and the representation of its type. *)

Inductive value_type := Int8 | Int16 | UInt8 | UInt16 | Float.

Definition sizeof_value (t : value_type) : nat :=
  match t with
  | Int8 | UInt8 => 1
  | Int16 | UInt16 => 2
  | Float => 4
  end.

Definition representable (t : value_type) (v : Z) : Prop :=
  match t with
  | Int8 => is_int8 v
  | Int16 => is_int16 v
  | UInt8 => is_uint8 v
  | UInt16 => is_uint16 v
  | Float => is_uint32 v
  end.

Definition decode_value `{HostAbi} (t : value_type) (bs : list Z) : Z :=
  match t with
  | Int8 => to_int8 (object_value bs)
  | Int16 => to_int16 (object_value bs)
  | UInt8 | UInt16 | Float => object_value bs
  end.

Record field_data := mkFieldData {
  fd_FieldId : Z;
  fd_Index : Z;
  fd_Value : Z
}.

Definition decode_field_data `{HostAbi} (t : value_type) (frame : list Z)
  : option field_data :=
  match frame !! 2%nat, frame !! 3%nat with
  | Some f, Some i =>
      Some (mkFieldData f i (decode_value t (load frame 4 (sizeof_value t))))
  | _, _ => None
  end.

(** Byte 3 read as [int8_t], the type the send functions give the index. *)
Definition decode_index (frame : list Z) : option Z :=
  to_int8 <$> frame !! 3%nat.

(** The five encoders and the five send functions, selected by the type of
    the value. *)
Definition CreateSettingsReport `{WheelApiHeader} `{HostAbi} (t : value_type)
  : list Z -> Z -> Z -> Z -> list Z :=
  match t with
  | Int8 => CreateInt8SettingsReport
  | Int16 => CreateInt16SettingsReport
  | UInt8 => CreateUInt8SettingsReport
  | UInt16 => CreateUInt16SettingsReport
  | Float => CreateFloatSettingsReport
  end.

Definition sendSettingReport `{WheelApiHeader} `{HostAbi} {World} `{HidApi World}
    (t : value_type) : Z -> Z -> Z -> M World Z :=
  match t with
  | Int8 => sendInt8SettingReport
  | Int16 => sendInt16SettingReport
  | UInt8 => sendUInt8SettingReport
  | UInt16 => sendUInt16SettingReport
  | Float => sendFloatSettingReport
  end.

(** ** A test bench

    Constants, a host and a transport to run the program on. The constants
    are stand-ins: the real ones are in the header. The bench transport
    answers every call from a fixed script and leaves the world as it is. *)

Module Bench.
#[export] Instance header : WheelApiHeader := {|
  USB_VID := 1155;
  WHEEL_PID_FS := 22870;
  REPORT_GENERIC_INPUT_OUTPUT := 163;
  REPORT_EFFECT_SETTINGS_FEATURE := 34;
  REPORT_HARDWARE_SETTINGS_FEATURE := 33;
  REPORT_GPIO_SETTINGS_FEATURE := 161;
  REPORT_ADC_SETTINGS_FEATURE := 162;
  DATA_COMMAND_SAVE_SETTINGS := 2;
  DATA_COMMAND_REBOOT := 1;
  DATA_COMMAND_DFU_MODE := 3;
  DATA_COMMAND_RESET_CENTER := 4;
  DATA_OVERRIDE_DATA := 16;
  DATA_SETTINGS_FIELD_DATA := 20;
  sizeof_EffectSettingsTypeDef := 3;
  sizeof_HardwareSettingsTypeDef := 3;
  sizeof_GpioExtensionSettingsTypeDef := 3;
  sizeof_AdcExtensionSettingsTypeDef := 3;
  sizeof_DeviceStateTypeDef := 3;
  sizeof_DirectControlTypeDef := 4
|}.

#[export] Instance little_endian : HostAbi := {| host_byte_order := LittleEndian |}.

Record script := mkScript {
  enumerated : list hid_device_info;
  opened : option hid_device;
  write_result : Z;
  read_result : Z;
  read_bytes : list Z
}.

#[export] Instance transport : HidApi script := {|
  transport_enumerate _ _ w := (enumerated w, w);
  transport_open_path _ w := (opened w, w);
  transport_free_enumeration _ w := w;
  transport_write _ _ _ w := (write_result w, w);
  transport_read_timeout _ _ _ _ w := (read_result w, read_bytes w, w);
  transport_get_feature_report _ _ _ w := (read_result w, read_bytes w, w)
|}.

Definition GAIN : Z := 7.

(** Two interfaces of one wheel; the vendor interface is the second. *)
Definition two_interfaces : list hid_device_info :=
  [ {| path := "hid#1"; interface_number := 1 |};
    {| path := "hid#0"; interface_number := 0 |} ].

(** The device is there and answers a read with 4 bytes. *)
Definition answering : script := mkScript two_interfaces (Some 1%nat) 65 4 [33; 10; 20; 30].
(** The device is there and cannot be opened. *)
Definition busy : script := mkScript two_interfaces None (-1) (-1) [].
(** The device is there and fails every read, after storing two bytes. *)
Definition failing : script := mkScript two_interfaces (Some 1%nat) (-1) (-1) [33; 10].
(** The device is there and a read times out. *)
Definition silent : script := mkScript two_interfaces (Some 1%nat) 65 0 [].

Definition connected (w : script) : State script := mkState (Some 1%nat) w [].
Definition disconnected (w : script) : State script := mkState None w [].
End Bench.

(** * Properties *)

(** ** Memory *)

Section Memory.
Context {A : Type}.
Implicit Types (buf bs dst src : list A) (off doff soff i j n : nat).

Lemma length_store buf off bs : length (store buf off bs) = length buf.
Proof.
  revert buf off. induction bs as [|b bs IH]; intros buf off; simpl.
  - reflexivity.
  - rewrite IH. apply length_insert.
Qed.

Lemma lookup_store_outside buf off bs i :
  (i < off)%nat \/ (off + length bs <= i)%nat ->
  store buf off bs !! i = buf !! i.
Proof.
  revert buf off. induction bs as [|b bs IH]; intros buf off Hi; simpl.
  - reflexivity.
  - rewrite IH by (simpl in Hi; lia).
    apply list_lookup_insert_ne. simpl in Hi. lia.
Qed.

Lemma lookup_store_inside buf off bs j :
  (off + length bs <= length buf)%nat ->
  (j < length bs)%nat ->
  store buf off bs !! (off + j)%nat = bs !! j.
Proof.
  revert buf off j. induction bs as [|b bs IH]; intros buf off j Hfit Hj;
    simpl in *.
  - lia.
  - destruct j as [|j].
    + rewrite lookup_store_outside by lia.
      rewrite Nat.add_0_r. apply list_lookup_insert_eq. lia.
    + replace (off + S j)%nat with (S off + j)%nat by lia.
      apply IH; [rewrite length_insert|]; lia.
Qed.

Lemma length_load buf off n :
  (off + n <= length buf)%nat -> length (load buf off n) = n.
Proof. intros Hfit. unfold load. rewrite length_take, length_drop. lia. Qed.

Lemma lookup_load buf off n i :
  (i < n)%nat -> load buf off n !! i = buf !! (off + i)%nat.
Proof.
  intros Hi. unfold load. rewrite lookup_take_lt by exact Hi.
  apply lookup_drop.
Qed.

(** What was stored is what is loaded back from the same place. *)
Lemma load_store buf off bs :
  (off + length bs <= length buf)%nat ->
  load (store buf off bs) off (length bs) = bs.
Proof.
  intros Hfit. apply list_eq. intros i.
  destruct (decide (i < length bs)%nat) as [Hi|Hi].
  - rewrite lookup_load by exact Hi. apply lookup_store_inside; assumption.
  - rewrite (lookup_ge_None_2 bs) by lia.
    apply lookup_ge_None_2. rewrite length_load; [lia|].
    rewrite length_store. exact Hfit.
Qed.

(** [memcpy] of [n] bytes that are there, into room that is there: the
    destination holds exactly the source bytes at the target offsets and
    is untouched elsewhere. *)
Lemma load_memcpy dst doff src soff n :
  (soff + n <= length src)%nat ->
  (doff + n <= length dst)%nat ->
  load (memcpy dst doff src soff n) doff n = load src soff n.
Proof.
  intros Hsrc Hdst. unfold memcpy.
  rewrite <- (length_load src soff n Hsrc) at 2.
  apply load_store. rewrite length_load; assumption.
Qed.

Lemma length_memcpy dst doff src soff n :
  length (memcpy dst doff src soff n) = length dst.
Proof. apply length_store. Qed.

Lemma memcpy_whole dst src soff :
  (soff + length dst <= length src)%nat ->
  memcpy dst 0 src soff (length dst) = load src soff (length dst).
Proof.
  intros Hsrc.
  transitivity (load (memcpy dst 0 src soff (length dst)) 0 (length dst)).
  - unfold load. rewrite drop_0. symmetry. apply take_ge.
    rewrite length_memcpy. lia.
  - apply load_memcpy; simpl; lia.
Qed.
End Memory.

(** ** Object representation *)

Lemma length_le_bytes n v : length (le_bytes n v) = n.
Proof. revert v. induction n as [|n IH]; intros v; simpl; [|rewrite IH]; reflexivity. Qed.

Lemma le_bytes_are_bytes n v : Forall is_uint8 (le_bytes n v).
Proof.
  revert v. induction n as [|n IH]; intros v; simpl; constructor.
  - unfold is_uint8. apply Z.mod_pos_bound. lia.
  - apply IH.
Qed.

(** The bytes hold the value modulo 2^(8n): its two's-complement pattern. *)
Lemma le_value_le_bytes n v : le_value (le_bytes n v) = v mod 256 ^ Z.of_nat n.
Proof.
  revert v. induction n as [|n IH]; intros v.
  - simpl. symmetry. apply Z.mod_1_r.
  - cbn [le_bytes le_value]. rewrite IH, Nat2Z.inj_succ, Z.pow_succ_r by lia.
    symmetry. apply Z.rem_mul_r; lia.
Qed.

(** Only the pattern is written: values equal modulo 2^(8n) give the same
    bytes. *)
Lemma le_bytes_wrap n v : le_bytes n (v mod 256 ^ Z.of_nat n) = le_bytes n v.
Proof.
  revert v. induction n as [|n IH]; intros v.
  - reflexivity.
  - cbn [le_bytes]. rewrite Nat2Z.inj_succ, Z.pow_succ_r by lia.
    assert (Hpos : 0 < 256 ^ Z.of_nat n) by (apply Z.pow_pos_nonneg; lia).
    rewrite (Z.rem_mul_r v 256 (256 ^ Z.of_nat n)) by lia.
    f_equal.
    + rewrite (Z.mul_comm 256), Z.mod_add by lia. apply Z.mod_mod. lia.
    + rewrite (Z.mul_comm 256), Z.div_add by lia.
      rewrite (Z.div_small (v mod 256)) by (apply Z.mod_pos_bound; lia).
      apply IH.
Qed.

Section ObjectRepresentation.
Context `{HostAbi}.

Lemma length_object_bytes n v : length (object_bytes n v) = n.
Proof.
  unfold object_bytes. destruct host_byte_order;
    [|rewrite length_rev]; apply length_le_bytes.
Qed.

Lemma object_value_object_bytes n v :
  object_value (object_bytes n v) = v mod 256 ^ Z.of_nat n.
Proof.
  unfold object_value, object_bytes. destruct host_byte_order;
    [|rewrite rev_involutive]; apply le_value_le_bytes.
Qed.

Lemma object_bytes_wrap n v :
  object_bytes n (v mod 256 ^ Z.of_nat n) = object_bytes n v.
Proof.
  unfold object_bytes. destruct host_byte_order; rewrite le_bytes_wrap; reflexivity.
Qed.

(** An [int16_t] and the [uint16_t] it converts to have the same bytes. *)
Lemma object_bytes_int16_uint16 v :
  object_bytes 2 (to_uint16 (to_int16 v)) = object_bytes 2 (to_int16 v).
Proof. exact (object_bytes_wrap 2 (to_int16 v)). Qed.
End ObjectRepresentation.

(** Conversions between the signed and the unsigned reading of a pattern. *)

Ltac wrap_lia := Z.to_euclidean_division_equations; lia.

Lemma to_uint8_id v : is_uint8 v -> to_uint8 v = v.
Proof. unfold is_uint8, to_uint8. intros Hv. apply Z.mod_small. exact Hv. Qed.

Lemma to_uint16_id v : is_uint16 v -> to_uint16 v = v.
Proof. unfold is_uint16, to_uint16. intros Hv. apply Z.mod_small. exact Hv. Qed.

Lemma to_uint32_id v : is_uint32 v -> to_uint32 v = v.
Proof. unfold is_uint32, to_uint32. intros Hv. apply Z.mod_small. exact Hv. Qed.

Lemma to_int8_id v : is_int8 v -> to_int8 v = v.
Proof.
  unfold is_int8, to_int8, to_uint8. intros Hv.
  destruct (Z.ltb_spec (v mod 256) 128); wrap_lia.
Qed.

Lemma to_int16_id v : is_int16 v -> to_int16 v = v.
Proof.
  unfold is_int16, to_int16, to_uint16. intros Hv.
  destruct (Z.ltb_spec (v mod 65536) 32768); wrap_lia.
Qed.

Lemma to_int8_to_uint8 v : to_int8 (to_uint8 v) = to_int8 v.
Proof. unfold to_int8, to_uint8. rewrite Z.mod_mod by lia. reflexivity. Qed.

Lemma to_int16_to_uint16 v : to_int16 (to_uint16 v) = to_int16 v.
Proof. unfold to_int16, to_uint16. rewrite Z.mod_mod by lia. reflexivity. Qed.

Lemma to_uint8_to_int8 v : to_uint8 (to_int8 v) = to_uint8 v.
Proof.
  unfold to_int8, to_uint8.
  destruct (Z.ltb_spec (v mod 256) 128); wrap_lia.
Qed.

Lemma to_uint16_to_int16 v : to_uint16 (to_int16 v) = to_uint16 v.
Proof.
  unfold to_int16, to_uint16.
  destruct (Z.ltb_spec (v mod 65536) 32768); wrap_lia.
Qed.

Lemma is_int8_to_int8 v : is_int8 (to_int8 v).
Proof.
  unfold is_int8, to_int8, to_uint8.
  destruct (Z.ltb_spec (v mod 256) 128); wrap_lia.
Qed.

Lemma is_uint8_to_uint8 v : is_uint8 (to_uint8 v).
Proof. unfold is_uint8, to_uint8. wrap_lia. Qed.

(** ** Running the program *)

Section Running.
Context `{WheelApiHeader} `{HostAbi} {World : Type} `{HidApi World}.
Implicit Types (st : State World) (dev : hid_device).

Lemma new_calls_log {A} (m : M World A) st c w a :
  m st = (a, log c w st) -> new_calls m st = [c].
Proof.
  intros Hm. unfold new_calls. rewrite Hm. simpl.
  rewrite drop_app_length. reflexivity.
Qed.

Lemma new_calls_none {A} (m : M World A) st a :
  m st = (a, st) -> new_calls m st = [].
Proof.
  intros Hm. unfold new_calls. rewrite Hm. simpl. apply drop_all.
Qed.

(** [hid_write] makes one transport call, with the frame it was given,
    and returns the transport's answer. *)
Lemma hid_write_run dev data n st :
  hid_write dev data n st =
    ((transport_write dev data n (world st)).1,
     log (call_write dev data n) (transport_write dev data n (world st)).2 st).
Proof. unfold hid_write. destruct (transport_write _ _ _ _). reflexivity. Qed.

Lemma frames_written_ext {A} (m1 m2 : M World A) st :
  m1 st = m2 st -> frames_written m1 st = frames_written m2 st.
Proof. intros Hm. unfold frames_written, new_calls. rewrite Hm. reflexivity. Qed.

Lemma frames_written_hid_write dev data n st :
  frames_written (hid_write dev data n) st = [data].
Proof.
  unfold frames_written.
  erewrite new_calls_log by apply hid_write_run. reflexivity.
Qed.

Lemma hid_get_feature_report_run dev data n st :
  hid_get_feature_report dev data n st =
    let a := transport_get_feature_report dev data n (world st) in
    ((a.1.1, store data 0 (Some <$> take n a.1.2)),
     log (call_get_feature_report dev (data !! 0%nat) n) a.2 st).
Proof.
  unfold hid_get_feature_report.
  destruct (transport_get_feature_report _ _ _ _) as [[r bytes] w].
  reflexivity.
Qed.

Lemma hid_read_timeout_run dev data n ms st :
  hid_read_timeout dev data n ms st =
    let a := transport_read_timeout dev data n ms (world st) in
    ((a.1.1, store data 0 (Some <$> take n a.1.2)),
     log (call_read_timeout dev n ms) a.2 st).
Proof.
  unfold hid_read_timeout.
  destruct (transport_read_timeout _ _ _ _ _) as [[r bytes] w].
  reflexivity.
Qed.

(** Whatever the library stores, the caller's buffer keeps its size. *)
Lemma hid_get_feature_report_length dev data n st :
  length (hid_get_feature_report dev data n st).1.2 = length data.
Proof. rewrite hid_get_feature_report_run. simpl. apply length_store. Qed.

Lemma hid_read_timeout_length dev data n ms st :
  length (hid_read_timeout dev data n ms st).1.2 = length data.
Proof. rewrite hid_read_timeout_run. simpl. apply length_store. Qed.
End Running.

(** ** Operations on a missing connection *)

(** [m] returns [a] from [st], makes no transport call and changes
    nothing: the world, the log and the handle are as they were. *)
Definition no_effect {World A} (m : M World A) (a : A) (st : State World) : Prop :=
  m st = (a, st) /\ new_calls m st = [].

Lemma no_effect_intro {World A} (m : M World A) (a : A) (st : State World) :
  m st = (a, st) -> no_effect m a st.
Proof.
  intros Hm. split; [exact Hm|].
  unfold new_calls. rewrite Hm. apply drop_all.
Qed.

Ltac not_connected Hh :=
  apply no_effect_intro;
  cbv beta iota zeta delta
    [bind get_handle saveAndReboot rebootController switchtoDfu resetCenter
     sendDirectControl sendInt8SettingReport sendInt16SettingReport
     sendUInt8SettingReport sendUInt16SettingReport sendFloatSettingReport
     readEffectSettings readHardwareSettings readGpioExtensionSettings
     readAdcExtensionSettings readState];
  rewrite Hh; reflexivity.

Section NotConnected.
Context `{WheelApiHeader} `{HostAbi} {World : Type} `{HidApi World}.

(** C3. With no connection handle every operation of the API (the four
    commands, sendDirectControl, the five typed setting sends, the four
    settings reads and readState) returns 0, leaves the destination of a
    read as it was, and makes no transport call. *)
Theorem not_connected_is_a_no_op (st : State World)
    (field index data : Z) (control : list Z) (destination : list memval) :
  handle st = None ->
  no_effect saveAndReboot 0 st /\
  no_effect rebootController 0 st /\
  no_effect switchtoDfu 0 st /\
  no_effect resetCenter 0 st /\
  no_effect (sendDirectControl control) 0 st /\
  no_effect (sendInt8SettingReport field index data) 0 st /\
  no_effect (sendInt16SettingReport field index data) 0 st /\
  no_effect (sendUInt8SettingReport field index data) 0 st /\
  no_effect (sendUInt16SettingReport field index data) 0 st /\
  no_effect (sendFloatSettingReport field index data) 0 st /\
  no_effect (readEffectSettings destination) (0, destination) st /\
  no_effect (readHardwareSettings destination) (0, destination) st /\
  no_effect (readGpioExtensionSettings destination) (0, destination) st /\
  no_effect (readAdcExtensionSettings destination) (0, destination) st /\
  no_effect (readState destination) (0, destination) st.
Proof.
  intros Hh.
  repeat split_and; not_connected Hh.
Qed.
End NotConnected.

(** ** The command frames *)

Ltac connected Hh :=
  cbv beta iota zeta delta
    [bind get_handle saveAndReboot rebootController switchtoDfu resetCenter
     sendDirectControl sendInt8SettingReport sendInt16SettingReport
     sendUInt8SettingReport sendUInt16SettingReport sendFloatSettingReport
     readEffectSettings readHardwareSettings readGpioExtensionSettings
     readAdcExtensionSettings readState];
  rewrite Hh.

(** A frame that is zero but for the identifier and the discriminator. *)
Definition command_frame (report_id discriminator : Z) : list Z :=
  report_id :: discriminator :: replicate 63 0.

Lemma command_frame_length r d : length (command_frame r d) = 65%nat.
Proof. reflexivity. Qed.

Lemma command_frame_body r d (i : nat) :
  (2 <= i < 65)%nat -> command_frame r d !! i = Some 0.
Proof.
  intros Hi. destruct i as [|[|i]]; [lia..|].
  change (command_frame r d !! S (S i)) with (replicate 63 0 !! i).
  apply lookup_replicate_2. lia.
Qed.

Lemma command_frame_same_but_discriminator r d1 d2 (i : nat) :
  i <> 1%nat -> command_frame r d1 !! i = command_frame r d2 !! i.
Proof. intros Hi. destruct i as [|[|i]]; [reflexivity|lia|reflexivity]. Qed.

Section Commands.
Context `{WheelApiHeader} `{HostAbi} {World : Type} `{HidApi World}.

(** The four no-body commands with their discriminators. *)
Definition commands : list (M World Z * Z) :=
  [ (saveAndReboot, DATA_COMMAND_SAVE_SETTINGS);
    (rebootController, DATA_COMMAND_REBOOT);
    (switchtoDfu, DATA_COMMAND_DFU_MODE);
    (resetCenter, DATA_COMMAND_RESET_CENTER) ].

Lemma command_run (st : State World) dev op cmd :
  handle st = Some dev ->
  In (op, cmd) commands ->
  op st =
    hid_write dev
      (command_frame (to_uint8 REPORT_GENERIC_INPUT_OUTPUT) (to_uint8 cmd)) 65 st.
Proof.
  intros Hh Hin. simpl in Hin.
  destruct Hin as [Heq|[Heq|[Heq|[Heq|[]]]]];
    injection Heq as <- <-; connected Hh; reflexivity.
Qed.

Lemma command_frames_written (st : State World) dev op cmd :
  handle st = Some dev ->
  In (op, cmd) commands ->
  new_calls op st =
    [call_write dev
       (command_frame (to_uint8 REPORT_GENERIC_INPUT_OUTPUT) (to_uint8 cmd)) 65].
Proof.
  intros Hh Hin.
  eapply new_calls_log. rewrite (command_run st dev op cmd Hh Hin).
  apply hid_write_run.
Qed.

(** C5. On a live connection each of saveAndReboot, rebootController,
    switchtoDfu and resetCenter hands exactly one frame to the transport;
    the frame has 65 bytes, byte 0 is the generic input/output report
    identifier, byte 1 the command's discriminator and every other byte
    is zero. Hence the frames of two commands agree at every offset other
    than 1. *)
Theorem command_frames_differ_in_discriminator_only (st : State World) dev :
  handle st = Some dev ->
  (forall op cmd, In (op, cmd) commands ->
     exists frame,
       new_calls op st = [call_write dev frame 65] /\
       frames_written op st = [frame] /\
       length frame = 65%nat /\
       frame !! 0%nat = Some (to_uint8 REPORT_GENERIC_INPUT_OUTPUT) /\
       frame !! 1%nat = Some (to_uint8 cmd) /\
       forall i : nat, (2 <= i < 65)%nat -> frame !! i = Some 0) /\
  (forall op1 cmd1 op2 cmd2 frame1 frame2,
     In (op1, cmd1) commands -> In (op2, cmd2) commands ->
     frames_written op1 st = [frame1] ->
     frames_written op2 st = [frame2] ->
     forall i : nat, i <> 1%nat -> frame1 !! i = frame2 !! i).
Proof.
  intros Hh.
  assert (Hfw : forall op cmd, In (op, cmd) commands ->
            frames_written op st =
              [command_frame (to_uint8 REPORT_GENERIC_INPUT_OUTPUT) (to_uint8 cmd)]).
  { intros op cmd Hin. unfold frames_written.
    rewrite (command_frames_written st dev op cmd Hh Hin). reflexivity. }
  split.
  - intros op cmd Hin. eexists. split; [|split; [|split; [|split; [|split]]]].
    + apply (command_frames_written st dev op cmd Hh Hin).
    + apply (Hfw op cmd Hin).
    + apply command_frame_length.
    + reflexivity.
    + reflexivity.
    + apply command_frame_body.
  - intros op1 cmd1 op2 cmd2 frame1 frame2 Hin1 Hin2 Hf1 Hf2 i Hi.
    rewrite (Hfw op1 cmd1 Hin1) in Hf1. rewrite (Hfw op2 cmd2 Hin2) in Hf2.
    injection Hf1 as <-. injection Hf2 as <-.
    apply command_frame_same_but_discriminator. exact Hi.
Qed.
End Commands.

(** ** The setting frames *)

(** A store past offset [i] commutes with a write at [i]. *)
Lemma store_insert_below {A} (buf : list A) (i off : nat) (x : A) (bs : list A) :
  (i < off)%nat ->
  store (<[i := x]> buf) off bs = <[i := x]> (store buf off bs).
Proof.
  revert buf off. induction bs as [|b bs IH]; intros buf off Hi; simpl.
  - reflexivity.
  - rewrite <- IH by lia. f_equal. apply list_insert_insert_ne. lia.
Qed.

(** What an encoder stores: its [value] parameter, converted to the
    parameter's type. *)
Definition converted (t : value_type) (v : Z) : Z :=
  match t with
  | Int8 => to_int8 v
  | Int16 => to_int16 v
  | UInt8 => to_uint8 v
  | UInt16 => to_uint16 v
  | Float => to_uint32 v
  end.

Lemma converted_representable t v : representable t v -> converted t v = v.
Proof.
  destruct t; simpl; intros Hv;
    auto using to_int8_id, to_int16_id, to_uint8_id, to_uint16_id, to_uint32_id.
Qed.

Section SettingFrames.
Context `{WheelApiHeader} `{HostAbi}.
Implicit Types (report frame : list Z) (t : value_type).

(** The header bytes an encoder writes before the index and the value. *)
Definition with_field_header report (fieldId : Z) : list Z :=
  <[2%nat := to_uint8 fieldId]>
    (<[1%nat := to_uint8 DATA_SETTINGS_FIELD_DATA]>
       (<[0%nat := to_uint8 REPORT_GENERIC_INPUT_OUTPUT]> report)).

Lemma CreateSettingsReport_stores t report fieldId index value :
  CreateSettingsReport t report fieldId index value =
    store (<[3%nat := to_uint8 index]> (with_field_header report fieldId)) 4
          (object_bytes (sizeof_value t) (converted t value)).
Proof. destruct t; reflexivity. Qed.

(** The index is one byte, at offset 3, written apart from the rest. *)
Lemma CreateSettingsReport_index t report fieldId index value :
  CreateSettingsReport t report fieldId index value =
    <[3%nat := to_uint8 index]>
      (store (with_field_header report fieldId) 4
             (object_bytes (sizeof_value t) (converted t value))).
Proof.
  rewrite CreateSettingsReport_stores. apply store_insert_below. lia.
Qed.

Lemma length_with_field_header report fieldId :
  length (with_field_header report fieldId) = length report.
Proof. unfold with_field_header. rewrite !length_insert. reflexivity. Qed.

Lemma length_CreateSettingsReport t report fieldId index value :
  length (CreateSettingsReport t report fieldId index value) = length report.
Proof.
  rewrite CreateSettingsReport_stores, length_store, length_insert.
  apply length_with_field_header.
Qed.

Lemma sizeof_value_bound t : (1 <= sizeof_value t <= 4)%nat.
Proof. destruct t; simpl; lia. Qed.

Lemma CreateSettingsReport_FieldId t report fieldId index value :
  (3 <= length report)%nat ->
  CreateSettingsReport t report fieldId index value !! 2%nat
    = Some (to_uint8 fieldId).
Proof.
  intros Hlen. rewrite CreateSettingsReport_index.
  rewrite list_lookup_insert_ne by lia.
  rewrite lookup_store_outside by lia.
  unfold with_field_header. apply list_lookup_insert_eq.
  rewrite !length_insert. lia.
Qed.

Lemma CreateSettingsReport_Index t report fieldId index value :
  (4 <= length report)%nat ->
  CreateSettingsReport t report fieldId index value !! 3%nat
    = Some (to_uint8 index).
Proof.
  intros Hlen. rewrite CreateSettingsReport_index.
  apply list_lookup_insert_eq.
  rewrite length_store, length_with_field_header. lia.
Qed.

Lemma CreateSettingsReport_Value t report fieldId index value :
  (8 <= length report)%nat ->
  load (CreateSettingsReport t report fieldId index value) 4 (sizeof_value t)
    = object_bytes (sizeof_value t) (converted t value).
Proof.
  intros Hlen. rewrite CreateSettingsReport_stores.
  set (bs := object_bytes (sizeof_value t) (converted t value)).
  assert (Hbs : length bs = sizeof_value t) by apply length_object_bytes.
  rewrite <- Hbs. apply load_store.
  rewrite Hbs, length_insert, length_with_field_header.
  pose proof (sizeof_value_bound t). lia.
Qed.

Lemma CreateSettingsReport_ReportId t report fieldId index value :
  (1 <= length report)%nat ->
  CreateSettingsReport t report fieldId index value !! 0%nat
    = Some (to_uint8 REPORT_GENERIC_INPUT_OUTPUT).
Proof.
  intros Hlen. rewrite CreateSettingsReport_index.
  rewrite list_lookup_insert_ne by lia.
  rewrite lookup_store_outside by lia.
  unfold with_field_header. rewrite !list_lookup_insert_ne by lia.
  apply list_lookup_insert_eq. lia.
Qed.

Lemma CreateSettingsReport_ReportData t report fieldId index value :
  (2 <= length report)%nat ->
  CreateSettingsReport t report fieldId index value !! 1%nat
    = Some (to_uint8 DATA_SETTINGS_FIELD_DATA).
Proof.
  intros Hlen. rewrite CreateSettingsReport_index.
  rewrite list_lookup_insert_ne by lia.
  rewrite lookup_store_outside by lia.
  unfold with_field_header. rewrite list_lookup_insert_ne by lia.
  apply list_lookup_insert_eq. rewrite length_insert. lia.
Qed.

(** Bytes past the value are left as they were. *)
Lemma CreateSettingsReport_rest t report fieldId index value (i : nat) :
  (4 + sizeof_value t <= i)%nat ->
  CreateSettingsReport t report fieldId index value !! i = report !! i.
Proof.
  intros Hi. rewrite CreateSettingsReport_index.
  rewrite list_lookup_insert_ne by lia.
  rewrite lookup_store_outside by (rewrite length_object_bytes; lia).
  unfold with_field_header. rewrite !list_lookup_insert_ne by lia.
  reflexivity.
Qed.

Lemma decode_value_object_bytes t v :
  representable t v ->
  decode_value t (object_bytes (sizeof_value t) v) = v.
Proof.
  intros Hv. unfold decode_value. rewrite object_value_object_bytes.
  destruct t; cbn [sizeof_value representable] in Hv |- *.
  - change (v mod 256 ^ Z.of_nat 1) with (to_uint8 v).
    rewrite to_int8_to_uint8. apply to_int8_id, Hv.
  - change (v mod 256 ^ Z.of_nat 2) with (to_uint16 v).
    rewrite to_int16_to_uint16. apply to_int16_id, Hv.
  - apply (to_uint8_id v Hv).
  - apply (to_uint16_id v Hv).
  - apply (to_uint32_id v Hv).
Qed.

(** C4. For each of the five value types, and whatever the report held
    before: a frame encoded by the type's Create...SettingsReport from a
    field identifier F, an index I (both [uint8_t], as the encoders take
    them) and a value V representable in the type decodes to exactly
    {F, I, V}: byte 2 is F, byte 3 is I and the bytes from offset 4 on
    are V in the type's representation. A float is its bit pattern. *)
Theorem setting_report_round_trip t report (F I V : Z) :
  length report = 65%nat ->
  is_uint8 F -> is_uint8 I -> representable t V ->
  decode_field_data t (CreateSettingsReport t report F I V)
    = Some (mkFieldData F I V).
Proof.
  intros Hlen HF HI HV. unfold decode_field_data.
  rewrite CreateSettingsReport_FieldId, CreateSettingsReport_Index by lia.
  rewrite CreateSettingsReport_Value by lia.
  rewrite (converted_representable t V HV).
  rewrite (decode_value_object_bytes t V HV).
  rewrite (to_uint8_id F HF), (to_uint8_id I HI). reflexivity.
Qed.
End SettingFrames.

(** ** The send functions *)

(** The encoder each send function calls: the signed 16-bit one calls the
    unsigned 16-bit encoder. *)
Definition encoder_of_send (t : value_type) : value_type :=
  match t with
  | Int16 => UInt16
  | _ => t
  end.

Section Sends.
Context `{WheelApiHeader} `{HostAbi} {World : Type} `{HidApi World}.
Implicit Types (st : State World) (dev : hid_device) (t : value_type).

(** The frame a send function builds from its parameters. *)
Definition sent_frame t (field index data : Z) : list Z :=
  CreateSettingsReport (encoder_of_send t)
    (zero_initialized sizeof_HidInOutReportTypeDef)
    field (to_int8 index) (converted t data).

Lemma sendSettingReport_run t st dev field index data :
  handle st = Some dev ->
  sendSettingReport t field index data st
    = hid_write dev (sent_frame t field index data) 65 st.
Proof. intros Hh. destruct t; simpl; connected Hh; reflexivity. Qed.

Lemma sendSettingReport_frames t st dev field index data :
  handle st = Some dev ->
  frames_written (sendSettingReport t field index data) st
    = [sent_frame t field index data].
Proof.
  intros Hh.
  rewrite <- (frames_written_hid_write dev (sent_frame t field index data) 65 st).
  apply frames_written_ext, sendSettingReport_run, Hh.
Qed.

Lemma sent_frame_length t field index data :
  length (sent_frame t field index data) = 65%nat.
Proof. unfold sent_frame. apply length_CreateSettingsReport. Qed.

(** The bytes of the value as the send function's type represents it,
    also on the signed 16-bit path. *)
Lemma sent_frame_Value t field index data :
  load (sent_frame t field index data) 4 (sizeof_value t)
    = object_bytes (sizeof_value t) (converted t data).
Proof.
  unfold sent_frame.
  replace (sizeof_value t) with (sizeof_value (encoder_of_send t))
    by (destruct t; reflexivity).
  rewrite CreateSettingsReport_Value by (simpl; lia).
  destruct t; cbn [encoder_of_send converted sizeof_value];
    try (f_equal; unfold to_uint8, to_uint32; apply Z.mod_mod; lia).
  - f_equal. apply to_int8_id, is_int8_to_int8.
  - apply object_bytes_int16_uint16.
Qed.

Lemma CreateUInt16_wrap report fieldId index v :
  CreateUInt16SettingsReport report fieldId index (to_uint16 v)
    = CreateUInt16SettingsReport report fieldId index v.
Proof.
  unfold CreateUInt16SettingsReport.
  replace (to_uint16 (to_uint16 v)) with (to_uint16 v)
    by (unfold to_uint16; rewrite Z.mod_mod by lia; reflexivity).
  reflexivity.
Qed.

Lemma CreateUInt16_of_int16 report fieldId index v :
  CreateUInt16SettingsReport report fieldId index (to_int16 v)
    = CreateUInt16SettingsReport report fieldId index v.
Proof.
  unfold CreateUInt16SettingsReport. rewrite to_uint16_to_int16. reflexivity.
Qed.

(** C6. For every field, index and value v, sendInt16SettingReport with v
    does exactly what sendUInt16SettingReport does with the unsigned
    16-bit number that has v's two's-complement pattern: the same frame
    goes to the transport and the same result comes back. The encoders
    CreateInt16SettingsReport and CreateUInt16SettingsReport, too, turn
    one report into the same frame for the same pattern. *)
Theorem int16_send_is_uint16_send st report (field index v : Z) :
  sendInt16SettingReport field index v st
    = sendUInt16SettingReport field index (to_uint16 v) st /\
  frames_written (sendInt16SettingReport field index v) st
    = frames_written (sendUInt16SettingReport field index (to_uint16 v)) st /\
  CreateInt16SettingsReport report field index v
    = CreateUInt16SettingsReport report field index (to_uint16 v).
Proof.
  assert (Hrun : sendInt16SettingReport field index v st
                 = sendUInt16SettingReport field index (to_uint16 v) st).
  { destruct (handle st) as [dev|] eqn:Hh.
    - change (sendSettingReport Int16 field index v st
              = sendSettingReport UInt16 field index (to_uint16 v) st).
      rewrite !(sendSettingReport_run _ st dev) by exact Hh.
      unfold sent_frame. cbn [encoder_of_send converted CreateSettingsReport].
      rewrite CreateUInt16_of_int16, !CreateUInt16_wrap. reflexivity.
    - transitivity (0, st); [|symmetry];
        cbv beta iota zeta delta
          [bind get_handle sendInt16SettingReport sendUInt16SettingReport];
        rewrite Hh; reflexivity. }
  split; [exact Hrun|]. split.
  - apply frames_written_ext, Hrun.
  - rewrite CreateUInt16_wrap.
    unfold CreateInt16SettingsReport, CreateUInt16SettingsReport.
    rewrite <- (object_bytes_int16_uint16 v), to_uint16_to_int16.
    reflexivity.
Qed.

(** C9. For each of the five typed setting sends on a live connection and
    every index of the signed 8-bit range, -128, -1, 0 and 127 among
    them: the index is byte 3 of the frame, as its two's-complement
    pattern, and reading byte 3 as a signed 8-bit number gives the index
    back. Byte 2 is the field identifier and the value bytes start at
    offset 4, and at every offset other than 3 the frame is the one any
    other index gives. *)
Theorem index_byte_stands_alone t st dev (field index data : Z) :
  handle st = Some dev ->
  is_int8 index ->
  exists frame,
    frames_written (sendSettingReport t field index data) st = [frame] /\
    frame !! 3%nat = Some (to_uint8 index) /\
    decode_index frame = Some index /\
    frame !! 2%nat = Some (to_uint8 field) /\
    load frame 4 (sizeof_value t)
      = object_bytes (sizeof_value t) (converted t data) /\
    forall index', exists frame',
      frames_written (sendSettingReport t field index' data) st = [frame'] /\
      forall i : nat, i <> 3%nat -> frame !! i = frame' !! i.
Proof.
  intros Hh Hindex.
  assert (Hbyte : sent_frame t field index data !! 3%nat
                  = Some (to_uint8 index)).
  { unfold sent_frame. rewrite CreateSettingsReport_Index by (simpl; lia).
    rewrite to_uint8_to_int8. reflexivity. }
  exists (sent_frame t field index data).
  split; [exact (sendSettingReport_frames t st dev field index data Hh)|].
  split; [exact Hbyte|].
  split.
  { unfold decode_index. rewrite Hbyte. simpl.
    rewrite to_int8_to_uint8, (to_int8_id index Hindex). reflexivity. }
  split.
  { unfold sent_frame. apply CreateSettingsReport_FieldId. simpl. lia. }
  split; [apply sent_frame_Value|].
  intros index'. exists (sent_frame t field index' data).
  split; [exact (sendSettingReport_frames t st dev field index' data Hh)|].
  intros i Hi. unfold sent_frame.
  rewrite !CreateSettingsReport_index, !list_lookup_insert_ne by lia.
  reflexivity.
Qed.
End Sends.

(** ** Direct control *)

Section DirectControl.
Context `{WheelApiHeader} `{HostAbi} {World : Type} `{HidApi World}.

(** The frame [sendDirectControl] builds. *)
Definition direct_control_frame (control : list Z) : list Z :=
  memcpy (command_frame (to_uint8 REPORT_GENERIC_INPUT_OUTPUT)
                        (to_uint8 DATA_OVERRIDE_DATA))
         2 control 0 sizeof_DirectControlTypeDef.

Lemma sendDirectControl_run (st : State World) dev control :
  handle st = Some dev ->
  sendDirectControl control st
    = hid_write dev (direct_control_frame control) 65 st.
Proof. intros Hh. connected Hh. reflexivity. Qed.

(** C8. On a live connection [sendDirectControl] hands one 65-byte frame
    to the transport: the generic input/output identifier, the
    OVERRIDE_DATA discriminator, and from offset 2 on the bytes of the
    Direct Control structure, so that the [sizeof(DirectControlTypeDef)]
    bytes read back from offset 2 are the structure. The structure has to
    fit the 63 bytes that follow the discriminator. *)
Theorem direct_control_is_copied_verbatim (st : State World) dev
    (control : list Z) :
  handle st = Some dev ->
  length control = sizeof_DirectControlTypeDef ->
  (sizeof_DirectControlTypeDef <= 63)%nat ->
  exists frame,
    new_calls (sendDirectControl control) st = [call_write dev frame 65] /\
    length frame = 65%nat /\
    frame !! 0%nat = Some (to_uint8 REPORT_GENERIC_INPUT_OUTPUT) /\
    frame !! 1%nat = Some (to_uint8 DATA_OVERRIDE_DATA) /\
    load frame 2 sizeof_DirectControlTypeDef = control.
Proof.
  intros Hh Hlen Hfit. exists (direct_control_frame control).
  split; [|split; [|split; [|split]]].
  - eapply new_calls_log. rewrite (sendDirectControl_run st dev control Hh).
    apply hid_write_run.
  - apply length_memcpy.
  - unfold direct_control_frame, memcpy.
    rewrite lookup_store_outside by lia. reflexivity.
  - unfold direct_control_frame, memcpy.
    rewrite lookup_store_outside by lia. reflexivity.
  - unfold direct_control_frame. rewrite load_memcpy.
    + unfold load. rewrite drop_0. apply take_ge. lia.
    + simpl. lia.
    + rewrite command_frame_length. lia.
Qed.
End DirectControl.

(** ** The read operations *)

Inductive read_op :=
| ReadEffectSettings
| ReadHardwareSettings
| ReadGpioExtensionSettings
| ReadAdcExtensionSettings
| ReadState.

Section Reads.
Context `{WheelApiHeader} `{HostAbi} {World : Type} `{HidApi World}.
Implicit Types (st : State World) (dev : hid_device) (op : read_op)
  (destination : list memval).

Definition run_read op : list memval -> M World (Z * list memval) :=
  match op with
  | ReadEffectSettings => readEffectSettings
  | ReadHardwareSettings => readHardwareSettings
  | ReadGpioExtensionSettings => readGpioExtensionSettings
  | ReadAdcExtensionSettings => readAdcExtensionSettings
  | ReadState => readState
  end.

(** The size of the structure [destination] points to. *)
Definition sizeof_destination op : nat :=
  match op with
  | ReadEffectSettings => sizeof_EffectSettingsTypeDef
  | ReadHardwareSettings => sizeof_HardwareSettingsTypeDef
  | ReadGpioExtensionSettings => sizeof_GpioExtensionSettingsTypeDef
  | ReadAdcExtensionSettings => sizeof_AdcExtensionSettingsTypeDef
  | ReadState => sizeof_DeviceStateTypeDef
  end.

(** The local [report] as the operation hands it to the transport. *)
Definition request op : list memval :=
  let report := uninitialized (sizeof_Report (sizeof_destination op)) in
  match op with
  | ReadEffectSettings =>
      <[0%nat := Some (to_uint8 REPORT_EFFECT_SETTINGS_FEATURE)]> report
  | ReadHardwareSettings =>
      <[0%nat := Some (to_uint8 REPORT_HARDWARE_SETTINGS_FEATURE)]> report
  | ReadGpioExtensionSettings =>
      <[0%nat := Some (to_uint8 REPORT_GPIO_SETTINGS_FEATURE)]> report
  | ReadAdcExtensionSettings =>
      <[0%nat := Some (to_uint8 REPORT_ADC_SETTINGS_FEATURE)]> report
  | ReadState => report
  end.

(** What the transport primitive of the operation answers from [st]: the
    returned [int] and the buffer as the primitive leaves it. *)
Definition transport_answer op dev st : Z * list memval :=
  match op with
  | ReadState => (hid_read_timeout dev (request op) 65 100 st).1
  | _ =>
      (hid_get_feature_report dev (request op)
         (sizeof_Report (sizeof_destination op)) st).1
  end.

(** Which operations return the transport's [int]; the others return the
    [result] that the inner declaration hides. *)
Definition returns_transport_result op : bool :=
  match op with
  | ReadEffectSettings | ReadState => true
  | _ => false
  end.

Lemma run_read_connected op st dev destination :
  handle st = Some dev ->
  (run_read op destination st).1 =
    let '(result, report) := transport_answer op dev st in
    (if returns_transport_result op then result else 0,
     if 0 <? result
     then memcpy destination 0 report 1 (sizeof_destination op)
     else destination).
Proof.
  intros Hh. destruct op; simpl; connected Hh.
  1-4: destruct (hid_get_feature_report _ _ _ _) as [[result report] st'];
    reflexivity.
  destruct (hid_read_timeout _ _ _ _ _) as [[result report] st']; reflexivity.
Qed.

Lemma length_request op :
  length (request op) = S (sizeof_destination op).
Proof.
  unfold request, uninitialized, sizeof_Report.
  destruct op; rewrite ?length_insert, length_replicate; reflexivity.
Qed.

Lemma length_transport_answer op dev st :
  length (transport_answer op dev st).2 = S (sizeof_destination op).
Proof.
  rewrite <- (length_request op). unfold transport_answer.
  destruct op;
    first [apply hid_get_feature_report_length | apply hid_read_timeout_length].
Qed.

(** [readEffectSettings] and [readState] hand the transport's [int] on. *)
Lemma read_result_propagated op st dev destination :
  handle st = Some dev ->
  returns_transport_result op = true ->
  (run_read op destination st).1.1 = (transport_answer op dev st).1.
Proof.
  intros Hh Hop. rewrite (run_read_connected op st dev destination Hh).
  destruct (transport_answer op dev st) as [result report].
  rewrite Hop. reflexivity.
Qed.

(** The three reads with the inner declaration return 0, whatever the
    transport answered. *)
Lemma read_result_hidden op st destination :
  returns_transport_result op = false ->
  (run_read op destination st).1.1 = 0.
Proof.
  intros Hop. destruct (handle st) as [dev|] eqn:Hh.
  - rewrite (run_read_connected op st dev destination Hh).
    destruct (transport_answer op dev st) as [result report].
    rewrite Hop. reflexivity.
  - destruct op; simpl in *; try discriminate;
      cbv beta iota zeta delta
        [bind get_handle readHardwareSettings readGpioExtensionSettings
         readAdcExtensionSettings];
      rewrite Hh; reflexivity.
Qed.

(** C7. For the four settings reads (and for readState alike) on a live
    connection: when the transport's answer is positive, the destination
    structure holds, byte for byte, what the buffer holds from offset 1
    on. The buffer has the identifier byte and the structure, nothing
    else. *)
Theorem settings_read_copies_payload op st dev destination :
  handle st = Some dev ->
  length destination = sizeof_destination op ->
  0 < (transport_answer op dev st).1 ->
  let buffer := (transport_answer op dev st).2 in
  let destination' := (run_read op destination st).1.2 in
  length buffer = S (sizeof_destination op) /\
  length destination' = sizeof_destination op /\
  destination' = load buffer 1 (sizeof_destination op) /\
  forall i : nat, (i < sizeof_destination op)%nat ->
    destination' !! i = buffer !! S i.
Proof.
  intros Hh Hlen Hpos. cbv zeta.
  pose proof (length_transport_answer op dev st) as Hbuf.
  rewrite (run_read_connected op st dev destination Hh).
  destruct (transport_answer op dev st) as [result report]. simpl in *.
  apply Z.ltb_lt in Hpos. rewrite Hpos.
  assert (Hcopy : memcpy destination 0 report 1 (sizeof_destination op)
                  = load report 1 (sizeof_destination op)).
  { rewrite <- Hlen. apply memcpy_whole. lia. }
  rewrite Hcopy. split; [exact Hbuf|]. split; [|split].
  - apply length_load. lia.
  - reflexivity.
  - intros i Hi. apply (lookup_load report 1 _ i Hi).
Qed.

(** C10. For each of the five read operations: with no connection handle,
    or when the transport's answer is zero or negative, the destination
    structure is returned as it was given. *)
Theorem failed_read_leaves_destination op st destination :
  handle st = None \/
  (exists dev, handle st = Some dev /\ (transport_answer op dev st).1 <= 0) ->
  (run_read op destination st).1.2 = destination.
Proof.
  intros [Hh|[dev [Hh Hfail]]].
  - destruct op; simpl;
      cbv beta iota zeta delta
        [bind get_handle readEffectSettings readHardwareSettings
         readGpioExtensionSettings readAdcExtensionSettings readState];
      rewrite Hh; reflexivity.
  - rewrite (run_read_connected op st dev destination Hh).
    destruct (transport_answer op dev st) as [result report]. simpl in *.
    apply Z.ltb_ge in Hfail. rewrite Hfail. reflexivity.
Qed.
End Reads.

(** ** connect *)

Section Connect.
Context `{WheelApiHeader} `{HostAbi} {World : Type} `{HidApi World}.
Implicit Types (st : State World) (devs : list hid_device_info).

(** The loop stops at the first entry with interface number 0. *)
Lemma connect_loop_first devs p :
  connect_loop devs = Some p <->
  exists before d after,
    devs = before ++ d :: after /\
    Forall (fun d' => interface_number d' <> 0) before /\
    interface_number d = 0 /\ path d = p.
Proof.
  induction devs as [|d0 devs IH]; simpl.
  - split; [discriminate|].
    intros (before & d & after & Heq & _). destruct before; discriminate.
  - destruct (Z.eqb_spec (interface_number d0) 0) as [Hz|Hnz].
    + split.
      * intros [= <-]. exists [], d0, devs. repeat split; auto.
      * intros (before & d & after & Heq & Hbefore & Hd & Hp).
        destruct before as [|b before]; simpl in Heq.
        -- injection Heq as -> ->. rewrite Hp. reflexivity.
        -- injection Heq as -> ->. inversion Hbefore; subst. contradiction.
    + rewrite IH. split.
      * intros (before & d & after & -> & Hbefore & Hd & Hp).
        exists (d0 :: before), d, after. repeat split; auto.
      * intros (before & d & after & Heq & Hbefore & Hd & Hp).
        destruct before as [|b before]; simpl in Heq.
        -- injection Heq as -> ->. contradiction.
        -- injection Heq as -> ->. inversion Hbefore; subst.
           exists before, d, after. repeat split; auto.
Qed.

Lemma connect_loop_none devs :
  connect_loop devs = None <->
  Forall (fun d => interface_number d <> 0) devs.
Proof.
  induction devs as [|d0 devs IH]; simpl.
  - split; [constructor|reflexivity].
  - destruct (Z.eqb_spec (interface_number d0) 0) as [Hz|Hnz].
    + split; [discriminate|]. intros Hall. inversion Hall; subst. contradiction.
    + rewrite IH. split; [intros Hall; constructor; assumption|].
      intros Hall. inversion Hall; subst. assumption.
Qed.

(** [connect] step by step. *)
Lemma connect_run st :
  let e := transport_enumerate USB_VID WHEEL_PID_FS (world st) in
  connect st =
    match connect_loop e.1 with
    | Some p =>
        let o := transport_open_path p e.2 in
        (1, mkState o.1 (transport_free_enumeration e.1 o.2)
              (calls st ++ [call_enumerate USB_VID WHEEL_PID_FS]
                        ++ [call_open_path p]
                        ++ [call_free_enumeration e.1]))
    | None =>
        (0, mkState (handle st) (transport_free_enumeration e.1 e.2)
              (calls st ++ [call_enumerate USB_VID WHEEL_PID_FS]
                        ++ [call_free_enumeration e.1]))
    end.
Proof.
  cbv zeta. unfold connect, bind, hid_enumerate.
  destruct (transport_enumerate _ _ _) as [devs w1]. simpl.
  destruct (connect_loop devs) as [p|]; simpl.
  - unfold hid_open_path. simpl.
    destruct (transport_open_path p w1) as [h w2]. simpl.
    unfold log. simpl. rewrite <- !app_assoc. reflexivity.
  - unfold log. simpl. rewrite <- !app_assoc. reflexivity.
Qed.

(** The enumeration is freed on every path, as the last call. *)
Lemma connect_frees_enumeration st :
  last (calls (connect st).2)
    = Some (call_free_enumeration
              (transport_enumerate USB_VID WHEEL_PID_FS (world st)).1).
Proof.
  pose proof (connect_run st) as Hrun. cbv zeta in Hrun. rewrite Hrun.
  destruct (connect_loop _); cbn [snd calls]; rewrite !app_assoc; apply last_snoc.
Qed.

(** The result says whether the loop found a path; the handle is what
    [hid_open_path] gave for it. *)
Lemma connect_result st :
  let devs := (transport_enumerate USB_VID WHEEL_PID_FS (world st)).1 in
  ((connect st).1 = 1 <-> exists p, connect_loop devs = Some p) /\
  ((connect st).1 = 0 <-> connect_loop devs = None).
Proof.
  cbv zeta. pose proof (connect_run st) as Hrun. cbv zeta in Hrun.
  rewrite Hrun. destruct (connect_loop _) as [p|]; simpl.
  - split; split; try discriminate; eauto.
  - split; split; try discriminate; auto. intros [p Hp]. discriminate.
Qed.
End Connect.

(** * The program on the bench *)

Section OnTheBench.
Import Bench.

(** The spec's end-to-end scenario on a little-endian host: field GAIN,
    index 2, value 30000 = 0x7530. *)
Example uint16_gain_frame :
  frames_written (sendUInt16SettingReport GAIN 2 30000) (connected answering)
    = [ [163; 20; GAIN; 2; 48; 117] ++ replicate 59 0 ].
Proof. reflexivity. Qed.

Example uint16_gain_decodes :
  decode_field_data UInt16 ([163; 20; GAIN; 2; 48; 117] ++ replicate 59 0)
    = Some (mkFieldData GAIN 2 30000).
Proof. reflexivity. Qed.

(** C1. The transport answers the feature-report request with 4, and
    [readEffectSettings] returns that 4; [readHardwareSettings],
    [readGpioExtensionSettings] and [readAdcExtensionSettings] return 0
    on the same answer, after copying the payload. The same holds for the
    failure answer -1: it is returned by the first and replaced by 0 in
    the other three. *)
Theorem settings_read_result_is_dropped :
  let destination := [Some 1; Some 2; Some 3] in
  (transport_answer ReadHardwareSettings 1%nat (connected answering)).1 = 4 /\
  (readEffectSettings destination (connected answering)).1
    = (4, [Some 10; Some 20; Some 30]) /\
  (readHardwareSettings destination (connected answering)).1
    = (0, [Some 10; Some 20; Some 30]) /\
  (readGpioExtensionSettings destination (connected answering)).1
    = (0, [Some 10; Some 20; Some 30]) /\
  (readAdcExtensionSettings destination (connected answering)).1
    = (0, [Some 10; Some 20; Some 30]) /\
  (readEffectSettings destination (connected failing)).1.1 = -1 /\
  (readHardwareSettings destination (connected failing)).1.1 = 0 /\
  (readGpioExtensionSettings destination (connected failing)).1.1 = 0 /\
  (readAdcExtensionSettings destination (connected failing)).1.1 = 0.
Proof. cbv zeta. repeat split. Qed.

(** C2. The vendor interface is enumerated and [hid_open_path] fails on
    it: [connect] returns 1 and the handle is null. The path chosen is
    that of the first entry with interface number 0 and the enumeration
    is freed. *)
Theorem connect_reports_success_without_a_handle :
  (connect (disconnected busy)).1 = 1 /\
  handle (connect (disconnected busy)).2 = None /\
  calls (connect (disconnected busy)).2
    = [ call_enumerate USB_VID WHEEL_PID_FS;
        call_open_path "hid#0";
        call_free_enumeration two_interfaces ].
Proof. repeat split. Qed.

Lemma not_connected_is_a_no_op_witness :
  handle (disconnected answering) = None /\
  no_effect (sendUInt16SettingReport GAIN 2 30000) 0 (disconnected answering) /\
  no_effect (readState [Some 1; Some 2; Some 3])
            (0, [Some 1; Some 2; Some 3]) (disconnected answering).
Proof.
  split; [reflexivity|].
  pose proof (not_connected_is_a_no_op (disconnected answering)
                GAIN 2 30000 [1; 2; 3; 4] [Some 1; Some 2; Some 3] eq_refl)
    as W.
  split; apply W.
Defined.

Lemma setting_report_round_trip_witness :
  length (zero_initialized 65) = 65%nat /\
  is_uint8 GAIN /\ is_uint8 255 /\ representable Int16 (-300) /\
  decode_field_data Int16
      (CreateInt16SettingsReport (zero_initialized 65) GAIN 255 (-300))
    = Some (mkFieldData GAIN 255 (-300)).
Proof.
  assert (HF : is_uint8 GAIN) by (unfold is_uint8, GAIN; lia).
  assert (HI : is_uint8 255) by (unfold is_uint8; lia).
  assert (HV : representable Int16 (-300)) by (unfold representable, is_int16; lia).
  split; [reflexivity|]. split; [exact HF|]. split; [exact HI|].
  split; [exact HV|].
  apply (setting_report_round_trip Int16 (zero_initialized 65) GAIN 255 (-300)
           eq_refl HF HI HV).
Defined.

Lemma command_frames_differ_in_discriminator_only_witness :
  handle (connected answering) = Some 1%nat /\
  exists frame,
    new_calls saveAndReboot (connected answering) = [call_write 1%nat frame 65] /\
    frame !! 0%nat = Some 163 /\
    frame !! 1%nat = Some DATA_COMMAND_SAVE_SETTINGS /\
    frame !! 64%nat = Some 0.
Proof.
  split; [reflexivity|].
  destruct (command_frames_differ_in_discriminator_only
              (connected answering) 1%nat eq_refl) as [W _].
  destruct (W saveAndReboot DATA_COMMAND_SAVE_SETTINGS (or_introl eq_refl))
    as (frame & Hcalls & _ & _ & Hid & Hcmd & Hzero).
  exists frame. repeat split; try assumption. apply Hzero. lia.
Defined.

Lemma direct_control_is_copied_verbatim_witness :
  handle (connected answering) = Some 1%nat /\
  length [1; 2; 3; 4] = sizeof_DirectControlTypeDef /\
  (sizeof_DirectControlTypeDef <= 63)%nat /\
  exists frame,
    new_calls (sendDirectControl [1; 2; 3; 4]) (connected answering)
      = [call_write 1%nat frame 65] /\
    load frame 2 4 = [1; 2; 3; 4].
Proof.
  assert (Hfit : (sizeof_DirectControlTypeDef <= 63)%nat) by (simpl; lia).
  assert (Hlen : length [1; 2; 3; 4] = sizeof_DirectControlTypeDef)
    by reflexivity.
  split; [reflexivity|]. split; [exact Hlen|]. split; [exact Hfit|].
  destruct (direct_control_is_copied_verbatim
              (connected answering) 1%nat [1; 2; 3; 4] eq_refl Hlen Hfit)
    as (frame & Hcalls & _ & _ & _ & Hbody).
  exists frame. split; assumption.
Defined.

Lemma index_byte_stands_alone_witness :
  handle (connected answering) = Some 1%nat /\
  Forall is_int8 [-128; -1; 0; 127] /\
  (exists frame,
     frames_written (sendInt8SettingReport GAIN (-1) 5) (connected answering)
       = [frame] /\
     frame !! 3%nat = Some 255 /\ decode_index frame = Some (-1)) /\
  (exists frame,
     frames_written (sendFloatSettingReport GAIN (-128) 1065353216)
                    (connected answering) = [frame] /\
     frame !! 3%nat = Some 128 /\ decode_index frame = Some (-128)) /\
  (exists frame,
     frames_written (sendInt16SettingReport GAIN 0 (-2)) (connected answering)
       = [frame] /\
     frame !! 3%nat = Some 0 /\ decode_index frame = Some 0) /\
  (exists frame,
     frames_written (sendUInt8SettingReport GAIN 127 200) (connected answering)
       = [frame] /\
     frame !! 3%nat = Some 127 /\ decode_index frame = Some 127).
Proof.
  assert (Hall : Forall is_int8 [-128; -1; 0; 127])
    by (repeat constructor; unfold is_int8; lia).
  split; [reflexivity|]. split; [exact Hall|].
  assert (Hm128 : is_int8 (-128)) by (unfold is_int8; lia).
  assert (Hm1 : is_int8 (-1)) by (unfold is_int8; lia).
  assert (H0 : is_int8 0) by (unfold is_int8; lia).
  assert (H127 : is_int8 127) by (unfold is_int8; lia).
  split; [|split; [|split]].
  - destruct (index_byte_stands_alone Int8 (connected answering) 1%nat
                GAIN (-1) 5 eq_refl Hm1) as (frame & Hf & Hb & Hd & _).
    exists frame. repeat split; assumption.
  - destruct (index_byte_stands_alone Float (connected answering) 1%nat
                GAIN (-128) 1065353216 eq_refl Hm128)
      as (frame & Hf & Hb & Hd & _).
    exists frame. repeat split; assumption.
  - destruct (index_byte_stands_alone Int16 (connected answering) 1%nat
                GAIN 0 (-2) eq_refl H0) as (frame & Hf & Hb & Hd & _).
    exists frame. repeat split; assumption.
  - destruct (index_byte_stands_alone UInt8 (connected answering) 1%nat
                GAIN 127 200 eq_refl H127) as (frame & Hf & Hb & Hd & _).
    exists frame. repeat split; assumption.
Defined.

Lemma settings_read_copies_payload_witness :
  handle (connected answering) = Some 1%nat /\
  length [Some 1; Some 2; Some 3] = sizeof_destination ReadHardwareSettings /\
  0 < (transport_answer ReadHardwareSettings 1%nat (connected answering)).1 /\
  (readHardwareSettings [Some 1; Some 2; Some 3] (connected answering)).1.2
    = load (transport_answer ReadHardwareSettings 1%nat (connected answering)).2
           1 3.
Proof.
  assert (Hpos : 0 < (transport_answer ReadHardwareSettings 1%nat
                        (connected answering)).1) by reflexivity.
  assert (Hlen : length [Some 1; Some 2; Some 3]
                 = sizeof_destination ReadHardwareSettings) by reflexivity.
  split; [reflexivity|]. split; [exact Hlen|]. split; [exact Hpos|].
  apply (settings_read_copies_payload ReadHardwareSettings
           (connected answering) 1%nat [Some 1; Some 2; Some 3]
           eq_refl Hlen Hpos).
Defined.

Lemma failed_read_leaves_destination_witness :
  (transport_answer ReadEffectSettings 1%nat (connected failing)).1 <= 0 /\
  (readEffectSettings [Some 1; Some 2; Some 3] (connected failing)).1.2
    = [Some 1; Some 2; Some 3] /\
  (transport_answer ReadState 1%nat (connected silent)).1 <= 0 /\
  (readState [Some 1; Some 2; Some 3] (connected silent)).1.2
    = [Some 1; Some 2; Some 3] /\
  (readGpioExtensionSettings [Some 1; Some 2; Some 3] (disconnected answering)).1.2
    = [Some 1; Some 2; Some 3].
Proof.
  assert (Hfail : (transport_answer ReadEffectSettings 1%nat
                     (connected failing)).1 <= 0) by discriminate.
  assert (Hsilent : (transport_answer ReadState 1%nat
                       (connected silent)).1 <= 0) by discriminate.
  split; [exact Hfail|]. split; [|split; [exact Hsilent|split]].
  - apply (failed_read_leaves_destination ReadEffectSettings (connected failing)).
    right. exists 1%nat. split; [reflexivity|exact Hfail].
  - apply (failed_read_leaves_destination ReadState (connected silent)).
    right. exists 1%nat. split; [reflexivity|exact Hsilent].
  - apply (failed_read_leaves_destination ReadGpioExtensionSettings
             (disconnected answering)).
    left. reflexivity.
Defined.
End OnTheBench.


(** * More of the program

    The write operations as one family, the transport calls each
    operation makes, what [connect] leaves behind, and the shape of every
    frame. *)

(** ** Stores into a known prefix *)

Lemma store_cons {A} (x : A) (buf : list A) (off : nat) (bs : list A) :
  store (x :: buf) (S off) bs = x :: store buf off bs.
Proof.
  revert buf off. induction bs as [|b bs IH]; intros buf off; simpl.
  - reflexivity.
  - apply IH.
Qed.

Lemma store_prefix {A} (buf bs : list A) :
  (length bs <= length buf)%nat ->
  store buf 0 bs = bs ++ drop (length bs) buf.
Proof.
  revert buf. induction bs as [|b bs IH]; intros buf Hfit; simpl.
  - rewrite drop_0. reflexivity.
  - destruct buf as [|x buf]; simpl in Hfit; [lia|].
    simpl. rewrite store_cons, IH by lia. reflexivity.
Qed.

(** A store that fits, read anywhere. *)
Lemma lookup_store {A} (buf : list A) (off : nat) (bs : list A) (i : nat) :
  (off + length bs <= length buf)%nat ->
  store buf off bs !! i =
    if decide (off <= i < off + length bs)%nat
    then bs !! (i - off)%nat
    else buf !! i.
Proof.
  intros Hfit. destruct (decide _) as [Hin|Hout].
  - replace i with (off + (i - off))%nat at 1 by lia.
    apply lookup_store_inside; lia.
  - apply lookup_store_outside. lia.
Qed.

(** ** The write operations *)

Inductive command := SaveAndReboot | RebootController | SwitchtoDfu | ResetCenter.

Inductive write_op :=
| Command (c : command)
| DirectControl (control : list Z)
| Setting (t : value_type) (field index data : Z).

Section WriteOps.
Context `{WheelApiHeader} `{HostAbi} {World : Type} `{HidApi World}.
Implicit Types (st : State World) (dev : hid_device) (op : write_op).

Definition run_command (c : command) : M World Z :=
  match c with
  | SaveAndReboot => saveAndReboot
  | RebootController => rebootController
  | SwitchtoDfu => switchtoDfu
  | ResetCenter => resetCenter
  end.

Definition discriminator_of (c : command) : Z :=
  match c with
  | SaveAndReboot => DATA_COMMAND_SAVE_SETTINGS
  | RebootController => DATA_COMMAND_REBOOT
  | SwitchtoDfu => DATA_COMMAND_DFU_MODE
  | ResetCenter => DATA_COMMAND_RESET_CENTER
  end.

Definition run_write op : M World Z :=
  match op with
  | Command c => run_command c
  | DirectControl control => sendDirectControl control
  | Setting t field index data => sendSettingReport t field index data
  end.

(** The frame the operation builds before it calls [hid_write]. *)
Definition frame_of op : list Z :=
  match op with
  | Command c =>
      command_frame (to_uint8 REPORT_GENERIC_INPUT_OUTPUT)
                    (to_uint8 (discriminator_of c))
  | DirectControl control => direct_control_frame control
  | Setting t field index data => sent_frame t field index data
  end.

Lemma run_write_connected op st dev :
  handle st = Some dev ->
  run_write op st = hid_write dev (frame_of op) 65 st.
Proof.
  intros Hh. destruct op as [c|control|t field index data].
  - destruct c; simpl; connected Hh; reflexivity.
  - apply sendDirectControl_run, Hh.
  - apply sendSettingReport_run, Hh.
Qed.

Lemma run_write_not_connected op st :
  handle st = None -> run_write op st = (0, st).
Proof.
  intros Hh. destruct op as [c|control|t field index data];
    [destruct c|idtac|destruct t]; simpl;
    cbv beta iota zeta delta
      [bind get_handle saveAndReboot rebootController switchtoDfu resetCenter
       sendDirectControl sendInt8SettingReport sendInt16SettingReport
       sendUInt8SettingReport sendUInt16SettingReport sendFloatSettingReport];
    rewrite Hh; reflexivity.
Qed.

Lemma length_frame_of op : length (frame_of op) = 65%nat.
Proof.
  destruct op as [c|control|t field index data].
  - reflexivity.
  - apply length_memcpy.
  - apply sent_frame_length.
Qed.
End WriteOps.

(** ** The frames, byte by byte *)

Section Frames.
Context `{WheelApiHeader} `{HostAbi} {World : Type} `{HidApi World}.
Implicit Types (st : State World) (dev : hid_device) (op : write_op)
  (t : value_type).

(** The bytes that reach the value slot are those of the send function's
    own type, whichever encoder it calls. *)
Lemma sent_value_bytes t data :
  object_bytes (sizeof_value (encoder_of_send t))
               (converted (encoder_of_send t) (converted t data))
    = object_bytes (sizeof_value t) (converted t data).
Proof.
  destruct t; cbn [encoder_of_send converted sizeof_value];
    try (f_equal; unfold to_uint8, to_uint32; apply Z.mod_mod; lia).
  - f_equal. apply to_int8_id, is_int8_to_int8.
  - apply object_bytes_int16_uint16.
Qed.

Lemma sent_frame_explicit t field index data :
  sent_frame t field index data =
    to_uint8 REPORT_GENERIC_INPUT_OUTPUT
      :: to_uint8 DATA_SETTINGS_FIELD_DATA
      :: to_uint8 field
      :: to_uint8 index
      :: object_bytes (sizeof_value t) (converted t data)
         ++ replicate (61 - sizeof_value t) 0.
Proof.
  unfold sent_frame. rewrite CreateSettingsReport_stores, sent_value_bytes.
  rewrite to_uint8_to_int8.
  change (<[3%nat := to_uint8 index]>
            (with_field_header (zero_initialized sizeof_HidInOutReportTypeDef) field))
    with (to_uint8 REPORT_GENERIC_INPUT_OUTPUT
            :: to_uint8 DATA_SETTINGS_FIELD_DATA
            :: to_uint8 field :: to_uint8 index :: replicate 61 0).
  rewrite !store_cons.
  rewrite store_prefix
    by (rewrite length_object_bytes, length_replicate;
        pose proof (sizeof_value_bound t); lia).
  rewrite length_object_bytes, drop_replicate. reflexivity.
Qed.

Lemma direct_control_frame_explicit (control : list Z) :
  length control = sizeof_DirectControlTypeDef ->
  (sizeof_DirectControlTypeDef <= 63)%nat ->
  direct_control_frame control =
    to_uint8 REPORT_GENERIC_INPUT_OUTPUT
      :: to_uint8 DATA_OVERRIDE_DATA
      :: control ++ replicate (63 - sizeof_DirectControlTypeDef) 0.
Proof.
  intros Hlen Hfit. unfold direct_control_frame, memcpy, command_frame, load.
  rewrite drop_0, take_ge by lia.
  rewrite !store_cons, store_prefix by (rewrite length_replicate; lia).
  rewrite Hlen, drop_replicate. reflexivity.
Qed.

Lemma object_bytes_are_bytes n v : Forall is_uint8 (object_bytes n v).
Proof.
  unfold object_bytes. destruct host_byte_order.
  - apply le_bytes_are_bytes.
  - apply Forall_rev, le_bytes_are_bytes.
Qed.

Lemma zeros_are_bytes n : Forall is_uint8 (replicate n 0).
Proof. apply Forall_replicate. unfold is_uint8. lia. Qed.

(** X1. On a live connection each of the ten write operations (the four
    commands, sendDirectControl, the five typed setting sends) makes
    exactly one transport call, [hid_write] with length 65 on a frame of 65
    bytes, returns what that call returned, whatever its sign, and leaves
    the world as the call left it. *)
Theorem write_returns_transport_result op st dev :
  handle st = Some dev ->
  let answer := transport_write dev (frame_of op) 65 (world st) in
  (run_write op st).1 = answer.1 /\
  new_calls (run_write op) st = [call_write dev (frame_of op) 65] /\
  world (run_write op st).2 = answer.2 /\
  length (frame_of op) = 65%nat.
Proof.
  intros Hh. cbv zeta.
  pose proof (run_write_connected op st dev Hh) as Hrun.
  rewrite hid_write_run in Hrun.
  split; [rewrite Hrun; reflexivity|].
  split; [exact (new_calls_log _ _ _ _ _ Hrun)|].
  split; [rewrite Hrun; reflexivity|].
  apply length_frame_of.
Qed.

(** X2. The frame of a typed setting send, whole: identifier, the
    SETTINGS_FIELD_DATA discriminator, field, index, the bytes of the value
    in its type's width, and zeros up to byte 64. The part of the 4-byte
    value slot that a narrower value leaves over is zero. *)
Theorem setting_frame_is_zero_padded t st dev (field index data : Z) :
  handle st = Some dev ->
  frames_written (sendSettingReport t field index data) st =
    [ to_uint8 REPORT_GENERIC_INPUT_OUTPUT
        :: to_uint8 DATA_SETTINGS_FIELD_DATA
        :: to_uint8 field
        :: to_uint8 index
        :: object_bytes (sizeof_value t) (converted t data)
           ++ replicate (61 - sizeof_value t) 0 ].
Proof.
  intros Hh. rewrite <- sent_frame_explicit.
  rewrite <- (frames_written_hid_write dev (sent_frame t field index data) 65 st).
  apply frames_written_ext, sendSettingReport_run, Hh.
Qed.

(** X3. The frame of sendDirectControl, whole: identifier, the
    OVERRIDE_DATA discriminator, the structure, and zeros up to byte 64,
    for a structure that fits the 63 bytes after the discriminator. *)
Theorem direct_control_frame_is_zero_padded st dev (control : list Z) :
  handle st = Some dev ->
  length control = sizeof_DirectControlTypeDef ->
  (sizeof_DirectControlTypeDef <= 63)%nat ->
  frames_written (sendDirectControl control) st =
    [ to_uint8 REPORT_GENERIC_INPUT_OUTPUT
        :: to_uint8 DATA_OVERRIDE_DATA
        :: control ++ replicate (63 - sizeof_DirectControlTypeDef) 0 ].
Proof.
  intros Hh Hlen Hfit.
  rewrite <- (direct_control_frame_explicit control Hlen Hfit).
  rewrite <- (frames_written_hid_write dev (direct_control_frame control) 65 st).
  apply frames_written_ext, sendDirectControl_run, Hh.
Qed.

(** X4. Every byte the write operations hand to the transport is a byte:
    each of the 65 entries of a frame is in 0..255, whatever the header's
    constants and the arguments are (for sendDirectControl: when the
    structure given is made of bytes and fits). *)
Theorem frames_are_made_of_bytes op st dev :
  handle st = Some dev ->
  match op with
  | DirectControl control =>
      length control = sizeof_DirectControlTypeDef /\
      (sizeof_DirectControlTypeDef <= 63)%nat /\
      Forall is_uint8 control
  | _ => True
  end ->
  exists frame,
    frames_written (run_write op) st = [frame] /\
    length frame = 65%nat /\
    Forall is_uint8 frame.
Proof.
  intros Hh Hop. exists (frame_of op).
  split; [|split].
  - rewrite <- (frames_written_hid_write dev (frame_of op) 65 st).
    apply frames_written_ext, run_write_connected, Hh.
  - apply length_frame_of.
  - destruct op as [c|control|t field index data]; cbn [frame_of].
    + unfold command_frame.
      repeat (apply Forall_cons; split; [apply is_uint8_to_uint8|]).
      apply zeros_are_bytes.
    + destruct Hop as (Hlen & Hfit & Hbytes).
      rewrite (direct_control_frame_explicit control Hlen Hfit).
      repeat (apply Forall_cons; split; [apply is_uint8_to_uint8|]).
      apply Forall_app. split; [exact Hbytes|apply zeros_are_bytes].
    + rewrite sent_frame_explicit.
      repeat (apply Forall_cons; split; [apply is_uint8_to_uint8|]).
      apply Forall_app. split; [apply object_bytes_are_bytes|apply zeros_are_bytes].
Qed.
End Frames.

(** ** The encoders on a report that is already filled *)

Section Encoders.
Context `{WheelApiHeader} `{HostAbi} {World : Type} `{HidApi World}.
Implicit Types (st : State World) (dev : hid_device) (t : value_type)
  (report : list Z).

Lemma CreateSettingsReport_explicit t report (F I V : Z) :
  (8 <= length report)%nat ->
  CreateSettingsReport t report F I V =
    to_uint8 REPORT_GENERIC_INPUT_OUTPUT
      :: to_uint8 DATA_SETTINGS_FIELD_DATA
      :: to_uint8 F
      :: to_uint8 I
      :: object_bytes (sizeof_value t) (converted t V)
         ++ drop (4 + sizeof_value t) report.
Proof.
  intros Hlen. rewrite CreateSettingsReport_stores.
  destruct report as [|a [|b [|c [|d rest]]]]; simpl in Hlen; try lia.
  change (<[3%nat := to_uint8 I]> (with_field_header (a :: b :: c :: d :: rest) F))
    with (to_uint8 REPORT_GENERIC_INPUT_OUTPUT
            :: to_uint8 DATA_SETTINGS_FIELD_DATA
            :: to_uint8 F :: to_uint8 I :: rest).
  rewrite !store_cons.
  rewrite store_prefix
    by (rewrite length_object_bytes; pose proof (sizeof_value_bound t); lia).
  rewrite length_object_bytes. reflexivity.
Qed.

(** X5. An encoder writes bytes 0 to 3 and the bytes of its value, and
    nothing else: the report keeps its length and every byte past the
    value, so a narrower value written over a wider one leaves the wider
    one's upper bytes in the slot. Encoding twice with the same type keeps
    nothing of the first: the result is that of the second alone. *)
Theorem encoder_writes_header_and_value_only t report (F I V F' I' V' : Z) :
  (8 <= length report)%nat ->
  length (CreateSettingsReport t report F I V) = length report /\
  (forall i : nat, (4 + sizeof_value t <= i)%nat ->
     CreateSettingsReport t report F I V !! i = report !! i) /\
  CreateSettingsReport t (CreateSettingsReport t report F' I' V') F I V
    = CreateSettingsReport t report F I V.
Proof.
  intros Hlen. split; [apply length_CreateSettingsReport|].
  split; [intros i Hi; apply CreateSettingsReport_rest, Hi|].
  rewrite (CreateSettingsReport_explicit t (CreateSettingsReport t report F' I' V'))
    by (rewrite length_CreateSettingsReport; exact Hlen).
  rewrite (CreateSettingsReport_explicit t report F' I' V' Hlen).
  rewrite (CreateSettingsReport_explicit t report F I V Hlen).
  do 4 f_equal. f_equal.
  change (drop (4 + sizeof_value t) (?a :: ?b :: ?c :: ?d :: ?l))
    with (drop (sizeof_value t) l).
  rewrite drop_app_length'; [reflexivity|symmetry; apply length_object_bytes].
Qed.

(** X6. The signed and the unsigned 8-bit paths coincide on bit patterns:
    sendInt8SettingReport with v does what sendUInt8SettingReport does with
    v's pattern read as unsigned, and so do the two encoders. *)
Theorem int8_send_is_uint8_send st report (field index v : Z) :
  sendInt8SettingReport field index v st
    = sendUInt8SettingReport field index (to_uint8 v) st /\
  CreateInt8SettingsReport report field index v
    = CreateUInt8SettingsReport report field index (to_uint8 v).
Proof.
  assert (Hbytes : forall x, object_bytes 1 (to_int8 x) = object_bytes 1 (to_uint8 x)).
  { intros x. rewrite <- (object_bytes_wrap 1 (to_int8 x)).
    change (to_int8 x mod 256 ^ Z.of_nat 1) with (to_uint8 (to_int8 x)).
    rewrite to_uint8_to_int8. reflexivity. }
  assert (Hidem : forall x, to_uint8 (to_uint8 x) = to_uint8 x)
    by (intros x; unfold to_uint8; apply Z.mod_mod; lia).
  assert (Hcreate : forall r f i x,
            CreateInt8SettingsReport r f i x
              = CreateUInt8SettingsReport r f i (to_uint8 x)).
  { intros r f i x. unfold CreateInt8SettingsReport, CreateUInt8SettingsReport.
    rewrite Hbytes, Hidem. reflexivity. }
  split; [|apply Hcreate].
  destruct (handle st) as [dev|] eqn:Hh.
  - change (sendSettingReport Int8 field index v st
            = sendSettingReport UInt8 field index (to_uint8 v) st).
    rewrite !(sendSettingReport_run _ st dev) by exact Hh.
    unfold sent_frame. cbn [encoder_of_send converted CreateSettingsReport].
    rewrite Hcreate, to_uint8_to_int8, Hidem. reflexivity.
  - transitivity (0, st); [|symmetry];
      cbv beta iota zeta delta
        [bind get_handle sendInt8SettingReport sendUInt8SettingReport];
      rewrite Hh; reflexivity.
Qed.

(** X7. What a typed setting send puts on the wire reads back as what was
    sent: for a field identifier that is a byte, an index of the signed
    8-bit range and a value of the send function's type, the frame decodes
    to the field, the index (as a signed byte) and the value. This holds
    for sendInt16SettingReport too, whose frame the unsigned encoder
    writes. *)
Theorem sent_setting_reads_back t st dev (field index data : Z) :
  handle st = Some dev ->
  is_uint8 field -> is_int8 index -> representable t data ->
  exists frame,
    frames_written (sendSettingReport t field index data) st = [frame] /\
    decode_field_data t frame
      = Some (mkFieldData field (to_uint8 index) data) /\
    decode_index frame = Some index.
Proof.
  intros Hh Hfield Hindex Hdata. exists (sent_frame t field index data).
  split.
  { rewrite <- (frames_written_hid_write dev (sent_frame t field index data) 65 st).
    apply frames_written_ext, sendSettingReport_run, Hh. }
  assert (H2 : sent_frame t field index data !! 2%nat = Some field).
  { unfold sent_frame. rewrite CreateSettingsReport_FieldId by (simpl; lia).
    rewrite (to_uint8_id field Hfield). reflexivity. }
  assert (H3 : sent_frame t field index data !! 3%nat = Some (to_uint8 index)).
  { unfold sent_frame. rewrite CreateSettingsReport_Index by (simpl; lia).
    rewrite to_uint8_to_int8. reflexivity. }
  split.
  - unfold decode_field_data. rewrite H2, H3, sent_frame_Value.
    rewrite (converted_representable t data Hdata).
    rewrite (decode_value_object_bytes t data Hdata). reflexivity.
  - unfold decode_index. rewrite H3. simpl.
    rewrite to_int8_to_uint8, (to_int8_id index Hindex). reflexivity.
Qed.
End Encoders.

(** ** The transport calls of the reads *)

Section ReadCalls.
Context `{WheelApiHeader} `{HostAbi} {World : Type} `{HidApi World}.
Implicit Types (st : State World) (dev : hid_device) (op : read_op)
  (wop : write_op) (destination : list memval).

(** The identifier a settings read puts into byte 0 of its request;
    [readState] sets none. *)
Definition feature_report_id op : option Z :=
  match op with
  | ReadEffectSettings => Some REPORT_EFFECT_SETTINGS_FEATURE
  | ReadHardwareSettings => Some REPORT_HARDWARE_SETTINGS_FEATURE
  | ReadGpioExtensionSettings => Some REPORT_GPIO_SETTINGS_FEATURE
  | ReadAdcExtensionSettings => Some REPORT_ADC_SETTINGS_FEATURE
  | ReadState => None
  end.

Definition read_call op dev : hid_call :=
  match feature_report_id op with
  | Some id =>
      call_get_feature_report dev (Some (Some (to_uint8 id)))
        (S (sizeof_destination op))
  | None => call_read_timeout dev 65 100
  end.

(** What the transport itself answers to the request of a settings read:
    the [int] and the bytes it stores. *)
Definition feature_report_reply op dev st : Z * list Z :=
  (transport_get_feature_report dev (request op)
     (sizeof_Report (sizeof_destination op)) (world st)).1.

Lemma run_read_state op st dev destination :
  handle st = Some dev ->
  exists w, (run_read op destination st).2 = log (read_call op dev) w st.
Proof.
  intros Hh. destruct op; simpl; connected Hh.
  1-4: rewrite hid_get_feature_report_run; eexists; reflexivity.
  rewrite hid_read_timeout_run. eexists. reflexivity.
Qed.

Lemma run_read_not_connected op st destination :
  handle st = None -> run_read op destination st = ((0, destination), st).
Proof.
  intros Hh. destruct op; simpl;
    cbv beta iota zeta delta
      [bind get_handle readEffectSettings readHardwareSettings
       readGpioExtensionSettings readAdcExtensionSettings readState];
    rewrite Hh; reflexivity.
Qed.

(** X8. On a live connection a read makes exactly one transport call: a
    settings read calls [hid_get_feature_report] with the identifier of its
    own report in byte 0 and the size of its report structure (one byte
    more than the settings structure) as length; [readState] calls
    [hid_read_timeout] with length 65 and timeout 100. What the destination
    holds plays no part. *)
Theorem read_makes_one_request op st dev destination :
  handle st = Some dev ->
  new_calls (run_read op destination) st = [read_call op dev].
Proof.
  intros Hh. destruct (run_read_state op st dev destination Hh) as [w Hst].
  unfold new_calls. rewrite Hst. simpl. rewrite drop_app_length. reflexivity.
Qed.

(** X9. No operation other than connect touches the handle: after any of
    the ten write operations and any of the five reads the handle is the
    one from before, connected or not and whatever the transport answered.
    A failed write or read does not disconnect. *)
Theorem handle_outlives_every_operation wop op st destination :
  handle (run_write wop st).2 = handle st /\
  handle (run_read op destination st).2 = handle st.
Proof.
  destruct (handle st) as [dev|] eqn:Hh.
  - split.
    + rewrite (run_write_connected wop st dev Hh), hid_write_run. simpl. exact Hh.
    + destruct (run_read_state op st dev destination Hh) as [w Hst].
      rewrite Hst. simpl. exact Hh.
  - split.
    + rewrite (run_write_not_connected wop st Hh). exact Hh.
    + rewrite (run_read_not_connected op st destination Hh). exact Hh.
Qed.


(** X11. [readHardwareSettings], [readGpioExtensionSettings] and
    [readAdcExtensionSettings] return 0 in every state and on every answer
    of the transport: their return value does not tell a read that filled
    the destination from one that failed. *)
Theorem hardware_gpio_adc_reads_return_zero st destination :
  (readHardwareSettings destination st).1.1 = 0 /\
  (readGpioExtensionSettings destination st).1.1 = 0 /\
  (readAdcExtensionSettings destination st).1.1 = 0.
Proof.
  assert (Hzero : forall op, returns_transport_result op = false ->
            (run_read op destination st).1.1 = 0).
  { intros op Hop. destruct (handle st) as [dev|] eqn:Hh.
    - rewrite (run_read_connected op st dev destination Hh).
      destruct (transport_answer op dev st). rewrite Hop. reflexivity.
    - rewrite (run_read_not_connected op st destination Hh). reflexivity. }
  split; [|split].
  - exact (Hzero ReadHardwareSettings eq_refl).
  - exact (Hzero ReadGpioExtensionSettings eq_refl).
  - exact (Hzero ReadAdcExtensionSettings eq_refl).
Qed.

Lemma transport_answer_feature op dev st :
  feature_report_id op <> None ->
  transport_answer op dev st =
    ((feature_report_reply op dev st).1,
     store (request op) 0
       (Some <$> take (S (sizeof_destination op)) (feature_report_reply op dev st).2)).
Proof.
  intros Hop. unfold feature_report_reply.
  destruct op; simpl in Hop; try contradiction;
    unfold transport_answer; rewrite hid_get_feature_report_run; reflexivity.
Qed.

Lemma request_payload_uninitialized op (i : nat) :
  (i < sizeof_destination op)%nat -> request op !! S i = Some None.
Proof.
  intros Hi. unfold request, uninitialized, sizeof_Report.
  destruct op; rewrite ?list_lookup_insert_ne by lia;
    apply lookup_replicate_2; lia.
Qed.

(** X12. A settings read copies the whole structure as soon as the
    transport's [int] is positive, however many bytes the transport stored:
    byte i of the destination is byte i+1 of what the transport stored
    where it stored that far, and an indeterminate byte of the local
    buffer, never written, where it did not. Nothing of the old content of
    the destination is left. *)
Theorem short_answer_copies_indeterminate_bytes op st dev destination :
  handle st = Some dev ->
  feature_report_id op <> None ->
  length destination = sizeof_destination op ->
  0 < (feature_report_reply op dev st).1 ->
  let stored := (feature_report_reply op dev st).2 in
  let destination' := (run_read op destination st).1.2 in
  length destination' = sizeof_destination op /\
  forall i : nat, (i < sizeof_destination op)%nat ->
    destination' !! i =
      match stored !! S i with
      | Some b => Some (Some b)
      | None => Some None
      end.
Proof.
  intros Hh Hop Hlen Hpos. cbv zeta.
  rewrite (run_read_connected op st dev destination Hh).
  rewrite (transport_answer_feature op dev st Hop).
  set (reply := feature_report_reply op dev st) in *.
  set (n := sizeof_destination op) in *.
  apply Z.ltb_lt in Hpos. rewrite Hpos.
  assert (Hfit : (0 + length (Some <$> take (S n) reply.2)
                  <= length (request op))%nat).
  { rewrite length_fmap, length_take, length_request. fold n. lia. }
  assert (Hreq : length (request op) = S n) by apply length_request.
  cbn [fst snd].
  set (buffer := store (request op) 0 (Some <$> take (S n) reply.2)).
  assert (Hcopy : memcpy destination 0 buffer 1 n = load buffer 1 n).
  { rewrite <- Hlen. apply memcpy_whole.
    unfold buffer. rewrite length_store, Hreq. lia. }
  rewrite Hcopy. unfold buffer. split.
  - apply length_load. rewrite length_store, Hreq. lia.
  - intros i Hi. rewrite lookup_load by exact Hi.
    rewrite (lookup_store _ _ _ _ Hfit).
    rewrite length_fmap, length_take, Nat.add_0_l, Nat.add_1_l.
    destruct (decide _) as [Hin|Hout].
    + rewrite Nat.sub_0_r, list_lookup_fmap, lookup_take_lt by lia.
      destruct (reply.2 !! S i) as [b|] eqn:Hb; [reflexivity|].
      apply lookup_ge_None in Hb. lia.
    + rewrite (lookup_ge_None_2 reply.2) by lia.
      apply request_payload_uninitialized. exact Hi.
Qed.
End ReadCalls.

(** ** What connect leaves behind *)

Section AfterConnect.
Context `{WheelApiHeader} `{HostAbi} {World : Type} `{HidApi World}.
Implicit Types (st : State World) (devs : list hid_device_info)
  (wop : write_op).

(** The enumeration [connect] gets, and the world after it. *)
Definition enumeration st : list hid_device_info * World :=
  transport_enumerate USB_VID WHEEL_PID_FS (world st).

Lemma connect_found st p :
  connect_loop (enumeration st).1 = Some p ->
  let o := transport_open_path p (enumeration st).2 in
  connect st =
    (1, mkState o.1 (transport_free_enumeration (enumeration st).1 o.2)
          (calls st ++ [call_enumerate USB_VID WHEEL_PID_FS;
                        call_open_path p;
                        call_free_enumeration (enumeration st).1])).
Proof.
  intros Hp. cbv zeta. pose proof (connect_run st) as Hrun. cbv zeta in Hrun.
  fold (enumeration st) in Hrun. rewrite Hp in Hrun. exact Hrun.
Qed.

Lemma connect_not_found st :
  connect_loop (enumeration st).1 = None ->
  connect st =
    (0, mkState (handle st)
          (transport_free_enumeration (enumeration st).1 (enumeration st).2)
          (calls st ++ [call_enumerate USB_VID WHEEL_PID_FS;
                        call_free_enumeration (enumeration st).1])).
Proof.
  intros Hp. pose proof (connect_run st) as Hrun. cbv zeta in Hrun.
  fold (enumeration st) in Hrun. rewrite Hp in Hrun. exact Hrun.
Qed.

(** X13. When the enumeration has an entry with interface number 0,
    [connect] opens the path of the first such entry and no other, returns
    1, and makes the handle whatever [hid_open_path] returned for that
    path, replacing the handle that was there. Its transport calls are the
    enumeration for (USB_VID, WHEEL_PID_FS), that one open, and the release
    of the enumeration. *)
Theorem connect_opens_first_vendor_interface st before d after :
  (enumeration st).1 = before ++ d :: after ->
  Forall (fun d' => interface_number d' <> 0) before ->
  interface_number d = 0 ->
  let opened := transport_open_path (path d) (enumeration st).2 in
  (connect st).1 = 1 /\
  handle (connect st).2 = opened.1 /\
  new_calls connect st =
    [ call_enumerate USB_VID WHEEL_PID_FS;
      call_open_path (path d);
      call_free_enumeration (enumeration st).1 ] /\
  world (connect st).2
    = transport_free_enumeration (enumeration st).1 opened.2.
Proof.
  intros Hdevs Hbefore Hd. cbv zeta.
  assert (Hp : connect_loop (enumeration st).1 = Some (path d)).
  { apply connect_loop_first. exists before, d, after. auto. }
  pose proof (connect_found st (path d) Hp) as Hrun. cbv zeta in Hrun.
  unfold new_calls. rewrite Hrun. simpl.
  rewrite drop_app_length. auto.
Qed.

(** X14. When no enumerated entry has interface number 0, the empty
    enumeration included, [connect] returns 0, opens nothing, releases the
    enumeration and leaves the handle as it was: a connection made before
    stays in use. *)
Theorem connect_without_vendor_interface st :
  Forall (fun d => interface_number d <> 0) (enumeration st).1 ->
  (connect st).1 = 0 /\
  handle (connect st).2 = handle st /\
  new_calls connect st =
    [ call_enumerate USB_VID WHEEL_PID_FS;
      call_free_enumeration (enumeration st).1 ].
Proof.
  intros Hall. apply connect_loop_none in Hall.
  pose proof (connect_not_found st Hall) as Hrun.
  unfold new_calls. rewrite Hrun. simpl.
  rewrite drop_app_length. auto.
Qed.

(** X15. In every state [connect] returns 0 or 1, starts with the
    enumeration and ends with its release, and in between opens at most one
    path, which is then the path of an enumerated entry with interface
    number 0. *)
Theorem connect_enumerates_opens_once_and_frees st :
  ((connect st).1 = 0 \/ (connect st).1 = 1) /\
  exists opens,
    new_calls connect st =
      [call_enumerate USB_VID WHEEL_PID_FS] ++ opens
        ++ [call_free_enumeration (enumeration st).1] /\
    (opens = [] \/
     exists d, In d (enumeration st).1 /\ interface_number d = 0 /\
               opens = [call_open_path (path d)]).
Proof.
  destruct (connect_loop (enumeration st).1) as [p|] eqn:Hp.
  - pose proof (connect_found st p Hp) as Hrun. cbv zeta in Hrun.
    apply connect_loop_first in Hp.
    destruct Hp as (before & d & after & Hdevs & _ & Hd & <-).
    split; [right; rewrite Hrun; reflexivity|].
    exists [call_open_path (path d)]. split.
    + unfold new_calls. rewrite Hrun. simpl. apply drop_app_length.
    + right. exists d. split; [|auto].
      rewrite Hdevs. apply in_or_app. right. left. reflexivity.
  - pose proof (connect_not_found st Hp) as Hrun.
    split; [left; rewrite Hrun; reflexivity|].
    exists []. split; [|left; reflexivity].
    unfold new_calls. rewrite Hrun. simpl. apply drop_app_length.
Qed.

(** X16. After [connect] found the vendor interface, a write operation
    talks to exactly the device [hid_open_path] returned. When
    [hid_open_path] returned null, [connect] has returned 1 all the same
    and the write operation that follows returns 0 without a transport
    call. *)
Theorem write_after_connect wop st p :
  connect_loop (enumeration st).1 = Some p ->
  (connect st).1 = 1 /\
  match (transport_open_path p (enumeration st).2).1 with
  | Some h =>
      new_calls (run_write wop) (connect st).2
        = [call_write h (frame_of wop) 65]
  | None =>
      run_write wop (connect st).2 = (0, (connect st).2) /\
      new_calls (run_write wop) (connect st).2 = []
  end.
Proof.
  intros Hp. pose proof (connect_found st p Hp) as Hrun. cbv zeta in Hrun.
  split; [rewrite Hrun; reflexivity|].
  assert (Hh : handle (connect st).2
               = (transport_open_path p (enumeration st).2).1)
    by (rewrite Hrun; reflexivity).
  destruct (transport_open_path p (enumeration st).2).1 as [h|].
  - eapply new_calls_log.
    rewrite (run_write_connected wop _ h Hh). apply hid_write_run.
  - pose proof (run_write_not_connected wop _ Hh) as Hw.
    split; [exact Hw|]. apply (new_calls_none _ _ _ Hw).
Qed.
End AfterConnect.

(** ** On the bench again *)

(** The device answers a settings read with a positive count and stores
    two bytes only. *)
Definition short_reply : Bench.script :=
  Bench.mkScript Bench.two_interfaces (Some 1%nat) 65 2 [33; 10].

(** No interface of the wheel is enumerated but a non-vendor one. *)
Definition no_vendor_interface : Bench.script :=
  Bench.mkScript [ {| path := "hid#1"; interface_number := 1 |} ] None (-1) (-1) [].

Section MoreOnTheBench.
Import Bench.

Lemma write_returns_transport_result_witness :
  handle (connected failing) = Some 1%nat /\
  (rebootController (connected failing)).1 = -1 /\
  new_calls (sendDirectControl [1; 2; 3; 4]) (connected failing)
    = [call_write 1%nat (direct_control_frame [1; 2; 3; 4]) 65].
Proof.
  split; [reflexivity|].
  pose proof (write_returns_transport_result (Command RebootController)
                (connected failing) 1%nat eq_refl) as (Hr & _).
  pose proof (write_returns_transport_result (DirectControl [1; 2; 3; 4])
                (connected failing) 1%nat eq_refl) as (_ & Hc & _).
  split; [exact Hr|exact Hc].
Defined.

Lemma setting_frame_is_zero_padded_witness :
  handle (connected answering) = Some 1%nat /\
  frames_written (sendInt8SettingReport GAIN 1 (-2)) (connected answering)
    = [ [163; 20; GAIN; 1; 254] ++ replicate 60 0 ].
Proof.
  split; [reflexivity|].
  exact (setting_frame_is_zero_padded Int8 (connected answering) 1%nat
           GAIN 1 (-2) eq_refl).
Defined.

Lemma direct_control_frame_is_zero_padded_witness :
  handle (connected answering) = Some 1%nat /\
  length [1; 2; 3; 4] = sizeof_DirectControlTypeDef /\
  (sizeof_DirectControlTypeDef <= 63)%nat /\
  frames_written (sendDirectControl [1; 2; 3; 4]) (connected answering)
    = [ [163; 16; 1; 2; 3; 4] ++ replicate 59 0 ].
Proof.
  assert (Hfit : (sizeof_DirectControlTypeDef <= 63)%nat) by (simpl; lia).
  assert (Hlen : length [1; 2; 3; 4] = sizeof_DirectControlTypeDef)
    by reflexivity.
  split; [reflexivity|]. split; [exact Hlen|]. split; [exact Hfit|].
  exact (direct_control_frame_is_zero_padded (connected answering) 1%nat
           [1; 2; 3; 4] eq_refl Hlen Hfit).
Defined.

Lemma frames_are_made_of_bytes_witness :
  handle (connected answering) = Some 1%nat /\
  (exists frame,
     frames_written (sendFloatSettingReport GAIN (-1) (-5)) (connected answering)
       = [frame] /\
     length frame = 65%nat /\ Forall is_uint8 frame) /\
  (exists frame,
     frames_written (sendDirectControl [1; 2; 3; 255]) (connected answering)
       = [frame] /\
     length frame = 65%nat /\ Forall is_uint8 frame).
Proof.
  split; [reflexivity|]. split.
  - exact (frames_are_made_of_bytes (Setting Float GAIN (-1) (-5))
             (connected answering) 1%nat eq_refl I).
  - assert (Hbytes : Forall is_uint8 [1; 2; 3; 255])
      by (repeat constructor; unfold is_uint8; lia).
    assert (Hfit : (sizeof_DirectControlTypeDef <= 63)%nat) by (simpl; lia).
    assert (Hlen : length [1; 2; 3; 255] = sizeof_DirectControlTypeDef)
      by reflexivity.
    exact (frames_are_made_of_bytes (DirectControl [1; 2; 3; 255])
             (connected answering) 1%nat eq_refl
             (conj Hlen (conj Hfit Hbytes))).
Defined.

Lemma encoder_writes_header_and_value_only_witness :
  let report := CreateFloatSettingsReport (zero_initialized 65) GAIN 0 4294967295 in
  (8 <= length report)%nat /\
  CreateInt8SettingsReport report GAIN 0 1 !! 5%nat = Some 255 /\
  CreateInt8SettingsReport (CreateInt8SettingsReport report 9 9 9) GAIN 0 1
    = CreateInt8SettingsReport report GAIN 0 1.
Proof.
  cbv zeta.
  set (report := CreateFloatSettingsReport (zero_initialized 65) GAIN 0 4294967295).
  assert (Hlen : (8 <= length report)%nat) by (simpl; lia).
  pose proof (encoder_writes_header_and_value_only Int8 report
                GAIN 0 1 9 9 9 Hlen) as (_ & Hrest & Hagain).
  split; [exact Hlen|]. split; [|exact Hagain].
  assert (Hfive : (4 + sizeof_value Int8 <= 5)%nat) by (simpl; lia).
  exact (Hrest 5%nat Hfive).
Defined.

Lemma sent_setting_reads_back_witness :
  handle (connected answering) = Some 1%nat /\
  is_uint8 GAIN /\ is_int8 (-1) /\ representable Int16 (-300) /\
  exists frame,
    frames_written (sendInt16SettingReport GAIN (-1) (-300)) (connected answering)
      = [frame] /\
    decode_field_data Int16 frame = Some (mkFieldData GAIN 255 (-300)) /\
    decode_index frame = Some (-1).
Proof.
  assert (HF : is_uint8 GAIN) by (unfold is_uint8, GAIN; lia).
  assert (HI : is_int8 (-1)) by (unfold is_int8; lia).
  assert (HV : representable Int16 (-300))
    by (unfold representable, is_int16; lia).
  split; [reflexivity|]. split; [exact HF|]. split; [exact HI|].
  split; [exact HV|].
  exact (sent_setting_reads_back Int16 (connected answering) 1%nat
           GAIN (-1) (-300) eq_refl HF HI HV).
Defined.

Lemma read_makes_one_request_witness :
  handle (connected answering) = Some 1%nat /\
  new_calls (readGpioExtensionSettings [Some 1; Some 2; Some 3]) (connected answering)
    = [call_get_feature_report 1%nat (Some (Some 161)) 4] /\
  new_calls (readState []) (connected silent)
    = [call_read_timeout 1%nat 65 100].
Proof.
  split; [reflexivity|]. split.
  - exact (read_makes_one_request ReadGpioExtensionSettings
             (connected answering) 1%nat [Some 1; Some 2; Some 3] eq_refl).
  - exact (read_makes_one_request ReadState (connected silent) 1%nat [] eq_refl).
Defined.


Lemma short_answer_copies_indeterminate_bytes_witness :
  handle (connected short_reply) = Some 1%nat /\
  0 < (feature_report_reply ReadEffectSettings 1%nat (connected short_reply)).1 /\
  (readEffectSettings [Some 1; Some 2; Some 3] (connected short_reply)).1.2 !! 0%nat
    = Some (Some 10) /\
  (readEffectSettings [Some 1; Some 2; Some 3] (connected short_reply)).1.2 !! 2%nat
    = Some None.
Proof.
  assert (Hpos : 0 < (feature_report_reply ReadEffectSettings 1%nat
                        (connected short_reply)).1) by reflexivity.
  assert (Hop : feature_report_id ReadEffectSettings <> None) by discriminate.
  assert (Hlen : length [Some 1; Some 2; Some 3]
                 = sizeof_destination ReadEffectSettings) by reflexivity.
  pose proof (short_answer_copies_indeterminate_bytes ReadEffectSettings
                (connected short_reply) 1%nat [Some 1; Some 2; Some 3]
                eq_refl Hop Hlen Hpos) as (_ & Hbytes).
  assert (H0 : (0 < sizeof_destination ReadEffectSettings)%nat) by (simpl; lia).
  assert (H2 : (2 < sizeof_destination ReadEffectSettings)%nat) by (simpl; lia).
  split; [reflexivity|]. split; [exact Hpos|]. split.
  - exact (Hbytes 0%nat H0).
  - exact (Hbytes 2%nat H2).
Defined.

Lemma connect_opens_first_vendor_interface_witness :
  (enumeration (connected busy)).1
    = [ {| path := "hid#1"; interface_number := 1 |} ]
        ++ {| path := "hid#0"; interface_number := 0 |} :: [] /\
  (connect (connected busy)).1 = 1 /\
  handle (connect (connected busy)).2 = None /\
  new_calls connect (connected busy)
    = [ call_enumerate USB_VID WHEEL_PID_FS;
        call_open_path "hid#0";
        call_free_enumeration two_interfaces ].
Proof.
  split; [reflexivity|].
  assert (Hbefore : Forall (fun d' => interface_number d' <> 0)
                      [ {| path := "hid#1"; interface_number := 1 |} ])
    by (repeat constructor; discriminate).
  pose proof (connect_opens_first_vendor_interface (connected busy)
                [ {| path := "hid#1"; interface_number := 1 |} ]
                {| path := "hid#0"; interface_number := 0 |} []
                eq_refl Hbefore eq_refl) as (Hr & Hh & Hc & _).
  split; [exact Hr|]. split; [exact Hh|exact Hc].
Defined.

Lemma connect_without_vendor_interface_witness :
  Forall (fun d => interface_number d <> 0)
         (enumeration (connected no_vendor_interface)).1 /\
  (connect (connected no_vendor_interface)).1 = 0 /\
  handle (connect (connected no_vendor_interface)).2 = Some 1%nat.
Proof.
  assert (Hall : Forall (fun d => interface_number d <> 0)
                        (enumeration (connected no_vendor_interface)).1)
    by (repeat constructor; discriminate).
  pose proof (connect_without_vendor_interface
                (connected no_vendor_interface) Hall) as (Hr & Hh & _).
  split; [exact Hall|]. split; [exact Hr|exact Hh].
Defined.

Lemma write_after_connect_witness :
  connect_loop (enumeration (disconnected busy)).1 = Some "hid#0" /\
  (connect (disconnected busy)).1 = 1 /\
  saveAndReboot (connect (disconnected busy)).2
    = (0, (connect (disconnected busy)).2) /\
  new_calls resetCenter (connect (disconnected answering)).2
    = [call_write 1%nat (command_frame 163 4) 65].
Proof.
  split; [reflexivity|].
  pose proof (write_after_connect (Command SaveAndReboot) (disconnected busy)
                "hid#0" eq_refl) as (Hr & Hw & _).
  pose proof (write_after_connect (Command ResetCenter) (disconnected answering)
                "hid#0" eq_refl) as (_ & Hc).
  split; [exact Hr|]. split; [exact Hw|exact Hc].
Defined.
End MoreOnTheBench.
